(** * marshmallow-jsonschema: the JSON Schema translator of [base.py]

    A shallow embedding of [marshmallow_jsonschema/base.py] (the class
    [JSONSchema] with [get_properties], [get_required], [_from_python_type],
    [_from_nested_schema] and [apply_metadata], and the tables [TYPE_MAP] and
    [FIELD_VALIDATORS]) together with the properties its specification states
    about it.

    Python dictionaries are association lists in insertion order whose
    assignment [d[k] = v] replaces the value of an existing key in place and
    appends a new key at the end.  Exceptions are an explicit result type.
    The recursion of [_from_nested_schema] through [cls().dump(...)] is
    modelled twice.  [dump] follows the nested schemas to a given depth and
    answers [Diverge] when the translation has not returned within it: the
    translation itself, whatever the stack.  [dump_limited] is the same
    translation on an interpreter whose stack admits only so many nested
    calls, where the call one too deep raises [RecursionError]. *)

From Stdlib Require Import List String Ascii ZArith Bool Lia Permutation Sorted.
From Stdlib Require Import OrderedTypeEx.
Import ListNotations.
Local Open Scope string_scope.

Set Implicit Arguments.
Set Warnings "-register-all".


(** ** Python values *)

(** The JSON-compatible values that appear in fragments, defaults, metadata
    and enumerations. *)
Inductive value : Type :=
| VNone
| VBool (b : bool)
| VInt (z : Z)
| VStr (s : string)
| VList (l : list value)
| VDict (d : list (string * value)).

Definition dict := list (string * value).

(** Python truthiness, as tested by [if title:]. *)
Definition truthy (v : value) : bool :=
  match v with
  | VNone => false
  | VBool b => b
  | VInt z => negb (Z.eqb z 0)
  | VStr s => negb (String.eqb s "")
  | VList l => match l with [] => false | _ => true end
  | VDict d => match d with [] => false | _ => true end
  end.

(** ** Dictionaries *)

Section Assoc.
Context {K V : Type} (eqb : K -> K -> bool).

(** [d.get(k)] *)
Fixpoint assoc_get (d : list (K * V)) (k : K) : option V :=
  match d with
  | [] => None
  | (k', v) :: d' => if eqb k' k then Some v else assoc_get d' k
  end.

(** [d[k] = v] *)
Fixpoint assoc_set (d : list (K * V)) (k : K) (v : V) : list (K * V) :=
  match d with
  | [] => [(k, v)]
  | (k', v') :: d' =>
      if eqb k' k then (k', v) :: d' else (k', v') :: assoc_set d' k v
  end.
End Assoc.

Definition dict_get {V} (d : list (string * V)) (k : string) : option V :=
  assoc_get String.eqb d k.

Definition dict_set {V} (d : list (string * V)) (k : string) (v : V)
  : list (string * V) :=
  assoc_set String.eqb d k v.

(** [for key, val in m.items(): d[key] = val] *)
Definition dict_update {V} (d m : list (string * V)) : list (string * V) :=
  fold_left (fun acc kv => dict_set acc (fst kv) (snd kv)) m d.

(** ** Exceptions and results *)

(** The native Python types that key [TYPE_MAP]; [py_other] stands for any
    type that is not one of the fifteen listed there. *)
Inductive pytype : Type :=
| py_dict | py_list | datetime_time | datetime_timedelta | datetime_datetime
| datetime_date | uuid_UUID | text_type | binary_type | decimal_Decimal
| py_set | py_tuple | py_float | py_int | py_bool
| py_other (n : nat).

Inductive exn : Type :=
| ValueError (msg : string)
| KeyError (t : pytype)
| RecursionError
| OtherError (msg : string).

Inductive res (A : Type) : Type :=
| Ok (a : A)
| Raise (e : exn)
| Diverge.

Arguments Ok {A} a.
Arguments Raise {A} e.
Arguments Diverge {A}.

Definition bind {A B} (m : res A) (k : A -> res B) : res B :=
  match m with
  | Ok a => k a
  | Raise e => Raise e
  | Diverge => Diverge
  end.

Notation "x <- m ;; k" := (bind m (fun x => k))
  (at level 61, m at next level, right associativity).

(** ** Field classes *)

(** The field classes of the host framework.  [UserClass n base] is a class
    declared by the user as a subclass of [base]. *)
Inductive field_class : Type :=
| Field | Raw | Nested | Dict | List | String_ | UUID | Number | Integer
| Decimal | Boolean | Float | DateTime | LocalDateTime | Time | Date
| TimeDelta | Url | Email
| UserClass (n : nat) (base : field_class).

(** The strict ancestors of a class, nearest first. *)
Fixpoint ancestors (c : field_class) : list field_class :=
  match c with
  | Field => []
  | Integer | Decimal | Float => [Number; Field]
  | LocalDateTime => [DateTime; Field]
  | Url | Email => [String_; Field]
  | UserClass _ base => base :: ancestors base
  | _ => [Field]
  end.

Fixpoint field_class_eqb (c d : field_class) : bool :=
  match c, d with
  | Field, Field | Raw, Raw | Nested, Nested | Dict, Dict | List, List
  | String_, String_ | UUID, UUID | Number, Number | Integer, Integer
  | Decimal, Decimal | Boolean, Boolean | Float, Float
  | DateTime, DateTime | LocalDateTime, LocalDateTime | Time, Time
  | Date, Date | TimeDelta, TimeDelta | Url, Url | Email, Email => true
  | UserClass n b, UserClass m b' => Nat.eqb n m && field_class_eqb b b'
  | _, _ => false
  end.

(** [issubclass(c, d)] *)
Definition issubclass (c d : field_class) : bool :=
  field_class_eqb c d || existsb (fun a => field_class_eqb a d) (ancestors c).

Definition pytype_eqb (s t : pytype) : bool :=
  match s, t with
  | py_dict, py_dict | py_list, py_list | datetime_time, datetime_time
  | datetime_timedelta, datetime_timedelta
  | datetime_datetime, datetime_datetime | datetime_date, datetime_date
  | uuid_UUID, uuid_UUID | text_type, text_type | binary_type, binary_type
  | decimal_Decimal, decimal_Decimal | py_set, py_set | py_tuple, py_tuple
  | py_float, py_float | py_int, py_int | py_bool, py_bool => true
  | py_other n, py_other m => Nat.eqb n m
  | _, _ => false
  end.

(** ** Validators, fields and schemas *)

Inductive validator_class : Type :=
| Length | OneOf | Range
| OtherValidator (n : nat).

(** A validator object: its class and the parameters the three supported
    classes carry. *)
Record validator : Type := {
  vclass : validator_class;
  vmin : option Z;
  vmax : option Z;
  vequal : option Z;
  vmin_inclusive : bool;
  vmax_inclusive : bool;
  vchoices : list value
}.

(** A bound field.  [default = None] is the [missing] sentinel.
    [field.metadata] is split in two: [metadata] holds the extra keyword
    arguments of the field and [metadata_dict] the keyword argument named
    [metadata], which the source takes to be a dict.  [nested] names the
    schema class a [Nested] field instantiates with [field.nested()]; it and
    [many] are read only on instances of [Nested].
    [_jsonschema_type_mapping] is [Some d] when the field has that method
    and calling it returns [d]. *)
Record field : Type := {
  name : string;
  attribute : option string;
  class_ : field_class;
  default : option value;
  required : bool;
  validators : list validator;
  metadata : dict;
  metadata_dict : option dict;
  nested : nat;
  many : bool;
  _jsonschema_type_mapping : option dict
}.

(** A schema instance: its [TYPE_MAPPING] and its [fields] dictionary, the
    items in declaration order. *)
Record schema : Type := {
  TYPE_MAPPING : list (pytype * field_class);
  fields : list (string * field)
}.

(** ** The tables of [base.py] *)

Definition TYPE_MAP : list (pytype * dict) :=
  [ (py_dict, [("type", VStr "object")]);
    (py_list, [("type", VStr "array")]);
    (datetime_time, [("type", VStr "string"); ("format", VStr "time")]);
    (datetime_timedelta, [("type", VStr "string")]);
    (datetime_datetime, [("type", VStr "string"); ("format", VStr "date-time")]);
    (datetime_date, [("type", VStr "string"); ("format", VStr "date")]);
    (uuid_UUID, [("type", VStr "string"); ("format", VStr "uuid")]);
    (text_type, [("type", VStr "string")]);
    (binary_type, [("type", VStr "string")]);
    (decimal_Decimal, [("type", VStr "number"); ("format", VStr "decimal")]);
    (py_set, [("type", VStr "array")]);
    (py_tuple, [("type", VStr "array")]);
    (py_float, [("type", VStr "number"); ("format", VStr "float")]);
    (py_int, [("type", VStr "number"); ("format", VStr "integer")]);
    (py_bool, [("type", VStr "boolean")]) ].

Definition validator_class_eqb (c d : validator_class) : bool :=
  match c, d with
  | Length, Length | OneOf, OneOf | Range, Range => true
  | OtherValidator n, OtherValidator m => Nat.eqb n m
  | _, _ => false
  end.

(** [sorted(obj.fields.items())]: insertion of an item by its key.  The keys
    of a dictionary are distinct, so the comparison of two items never reaches
    their second components. *)
Fixpoint insert_item (x : string * field) (l : list (string * field))
  : list (string * field) :=
  match l with
  | [] => [x]
  | y :: l' =>
      if String.leb (fst x) (fst y) then x :: l else y :: insert_item x l'
  end.

Fixpoint sorted (l : list (string * field)) : list (string * field) :=
  match l with
  | [] => []
  | x :: l' => insert_item x (sorted l')
  end.

(** ** The translator *)

Section Translator.

(** The handlers of [validation.py], which [FIELD_VALIDATORS] refers to:
    [handler(schema, field, validator, parent_schema)]. *)
Variable handle_length : dict -> field -> validator -> schema -> res dict.
Variable handle_one_of : dict -> field -> validator -> schema -> res dict.
Variable handle_range : dict -> field -> validator -> schema -> res dict.

(** [str(field)], the host framework's rendering of a field. *)
Variable field_str : field -> string.

(** The schema classes of the program: [classes n] is the instance that
    calling class [n] builds. *)
Variable classes : nat -> schema.

Definition FIELD_VALIDATORS
  : list (validator_class * (dict -> field -> validator -> schema -> res dict)) :=
  [ (Length, handle_length); (OneOf, handle_one_of); (Range, handle_range) ].

(** The dictionary [mapping] that [get_properties] builds from
    [obj.TYPE_MAPPING] and its five own entries. *)
Definition mapping (obj : schema) : list (field_class * pytype) :=
  let m := fold_left (fun acc kv => assoc_set field_class_eqb acc (snd kv) (fst kv))
                     (TYPE_MAPPING obj) [] in
  let m := assoc_set field_class_eqb m Email text_type in
  let m := assoc_set field_class_eqb m Dict py_dict in
  let m := assoc_set field_class_eqb m List py_list in
  let m := assoc_set field_class_eqb m Url text_type in
  assoc_set field_class_eqb m LocalDateTime datetime_datetime.

(** [field.attribute or field.name] *)
Definition attribute_or_name (f : field) : string :=
  match attribute f with
  | Some a => if String.eqb a "" then name f else a
  | None => name f
  end.

Definition _from_python_type (f : field) (t : pytype) : res dict :=
  let json_schema := [("title", VStr (attribute_or_name f))] in
  match assoc_get pytype_eqb TYPE_MAP t with
  | None => Raise (KeyError t)
  | Some m =>
      let json_schema := dict_update json_schema m in
      let json_schema :=
        match default f with
        | Some d => dict_set json_schema "default" d
        | None => json_schema
        end in
      Ok json_schema
  end.

(** [dump] stands for [cls().dump(...).data]. *)
Definition _from_nested_schema (dump : schema -> res dict) (f : field)
  : res dict :=
  sch <- dump (classes (nested f)) ;;
  if many f then
    Ok [ ("type", VList (if required f then [VStr "array"]
                         else [VStr "array"; VStr "null"]));
         ("items", VDict sch) ]
  else Ok sch.

Definition apply_metadata (f : field) (sch : dict) : dict :=
  let md := match metadata_dict f with Some d => d | None => [] end in
  let get_or_none (d : dict) k :=
    match dict_get d k with Some v => v | None => VNone end in
  let title :=
    match dict_get (metadata f) "title" with
    | Some v => v
    | None => get_or_none md "title"
    end in
  let description :=
    match dict_get (metadata f) "description" with
    | Some v => v
    | None => get_or_none md "description"
    end in
  let sch := if truthy title then dict_set sch "title" title else sch in
  let sch :=
    if truthy description then dict_set sch "description" description
    else sch in
  sch.

(** The loop [for validator in field.validators], run over the list [vs]
    for the field [f]. *)
Fixpoint apply_validators (obj : schema) (f : field) (vs : list validator)
         (sch : dict) : res dict :=
  match vs with
  | [] => Ok sch
  | v :: vs' =>
      match assoc_get validator_class_eqb FIELD_VALIDATORS (vclass v) with
      | Some handler =>
          sch' <- handler sch f v obj ;;
          apply_validators obj f vs' sch'
      | None => apply_validators obj f vs' sch
      end
  end.

(** [isinstance(field, fields.Nested)] *)
Definition is_nested (f : field) : bool := issubclass (class_ f) Nested.

(** The [if]/[elif] chain of [get_properties] that picks the starting
    fragment of a field. *)
Definition starting_fragment (dump : schema -> res dict) (obj : schema)
           (f : field) : res dict :=
  match _jsonschema_type_mapping f with
  | Some d => Ok d
  | None =>
      match assoc_get field_class_eqb (mapping obj) (class_ f) with
      | Some t => _from_python_type f t
      | None =>
          if is_nested f then _from_nested_schema dump f
          else Raise (ValueError ("unsupported field type " ++ field_str f))
      end
  end.

(** The body of the loop of [get_properties] for one field. *)
Definition field_fragment (dump : schema -> res dict) (obj : schema)
           (f : field) : res dict :=
  sch <- starting_fragment dump obj f ;;
  sch <- apply_validators obj f (validators f) sch ;;
  Ok (apply_metadata f sch).

(** The loop of [get_properties] over the items [l], [properties] being the
    dictionary built so far. *)
Fixpoint properties_loop (dump : schema -> res dict) (obj : schema)
         (l : list (string * field)) (properties : dict) : res dict :=
  match l with
  | [] => Ok properties
  | (_, f) :: l' =>
      sch <- field_fragment dump obj f ;;
      properties_loop dump obj l' (dict_set properties (name f) (VDict sch))
  end.

Definition get_properties (dump : schema -> res dict) (obj : schema)
  : res dict :=
  properties_loop dump obj (sorted (fields obj)) [].

Fixpoint required_loop (l : list (string * field)) (req : list string)
  : list string :=
  match l with
  | [] => req
  | (_, f) :: l' =>
      required_loop l' (if required f then req ++ [name f] else req)
  end.

Definition get_required (obj : schema) : list string :=
  required_loop (sorted (fields obj)) [].

(** [JSONSchema().dump(obj).data]: the three declared fields of
    [JSONSchema], in their declaration order; an exception raised by
    [get_properties] ends the call. *)
Definition dump_with (dump : schema -> res dict) (obj : schema) : res dict :=
  properties <- get_properties dump obj ;;
  Ok [ ("properties", VDict properties);
       ("type", VStr "object");
       ("required", VList (map VStr (get_required obj))) ].

Fixpoint dump (fuel : nat) (obj : schema) : res dict :=
  match fuel with
  | O => Diverge
  | S n => dump_with (dump n) obj
  end.

(** [JSONSchema().dump(obj).data] on an interpreter whose stack admits
    [limit] nested calls of [dump]: the call that would be one too deep
    raises [RecursionError], which ends every call above it. *)
Fixpoint dump_limited (limit : nat) (obj : schema) : res dict :=
  match limit with
  | O => Raise RecursionError
  | S n => dump_with (dump_limited n) obj
  end.

Definition field_name (kf : string * field) : string := name (snd kf).

(** The fragment of a field that translates, the empty dict otherwise. *)
Definition fragment_of (d : schema -> res dict) (obj : schema) (f : field)
  : dict :=
  match field_fragment d obj f with Ok s => s | _ => [] end.

Definition entry_of (d : schema -> res dict) (obj : schema)
           (kf : string * field) : string * value :=
  (field_name kf, VDict (fragment_of d obj (snd kf))).

End Translator.

Arguments dump_with : clear implicits.
Arguments dump : clear implicits.
Arguments dump_limited : clear implicits.
Arguments get_properties : clear implicits.
Arguments field_fragment : clear implicits.
Arguments starting_fragment : clear implicits.
Arguments apply_validators : clear implicits.
Arguments properties_loop : clear implicits.
Arguments _from_nested_schema : clear implicits.
Arguments fragment_of : clear implicits.
Arguments entry_of : clear implicits.

(** The value [apply_metadata] finds for [title] and for [description]: the
    direct key of [field.metadata] when it is there, else the key of the
    [metadata] dict, else [None]. *)
Definition metadata_lookup (f : field) (k : string) : value :=
  match dict_get (metadata f) k with
  | Some v => v
  | None =>
      match dict_get (match metadata_dict f with Some d => d | None => [] end) k with
      | Some v => v
      | None => VNone
      end
  end.

(** The field [f] with [vs] as its list of validators. *)
Definition set_validators (f : field) (vs : list validator) : field :=
  {| name := name f; attribute := attribute f; class_ := class_ f;
     default := default f; required := required f; validators := vs;
     metadata := metadata f; metadata_dict := metadata_dict f;
     nested := nested f; many := many f;
     _jsonschema_type_mapping := _jsonschema_type_mapping f |}.

(** A handler that does not read the validator list of the field it is
    given. *)
Definition ignores_validators
           (h : dict -> field -> validator -> schema -> res dict) : Prop :=
  forall s f v obj vs, h s (set_validators f vs) v obj = h s f v obj.


(** [sub in s] on strings. *)
Fixpoint contains (sub s : string) : bool :=
  String.prefix sub s ||
  match s with
  | EmptyString => false
  | String _ s' => contains sub s'
  end.

(** What an interpreter with a stack limit makes of a run to the depth of
    the limit: the run that has not returned by then is the one that raises
    [RecursionError]. *)
Definition limited (r : res dict) : res dict :=
  match r with
  | Diverge => Raise RecursionError
  | _ => r
  end.

(** A run that returned or raised: its answer, as opposed to [Diverge]. *)
Definition answers {A} (r : res A) : Prop := r <> Diverge.

(** The order of [sorted] on the items: by their keys. *)
Definition key_le (x y : string * field) : Prop :=
  String.leb (fst x) (fst y) = true.


(** [validator.__class__ in FIELD_VALIDATORS] *)
Definition supported_validator (c : validator_class) : bool :=
  existsb (validator_class_eqb c) [Length; OneOf; Range].

(** The fragment [_from_nested_schema] builds around the translation [items]
    of the nested schema when [many] is set. *)
Definition array_fragment (req : bool) (items : dict) : dict :=
  [ ("type", VList (if req then [VStr "array"]
                    else [VStr "array"; VStr "null"]));
    ("items", VDict items) ].

(** The five field classes [get_properties] enters into [mapping] itself. *)
Definition own_classes : list field_class :=
  [Email; Dict; List; Url; LocalDateTime].

(** The field reaches the [isinstance(field, fields.Nested)] branch of
    [get_properties]: it has no [_jsonschema_type_mapping], its class is no
    key of [mapping], and it is an instance of [Nested]. *)
Definition reaches_nested (obj : schema) (f : field) : bool :=
  match _jsonschema_type_mapping f with
  | Some _ => false
  | None =>
      match assoc_get field_class_eqb (mapping obj) (class_ f) with
      | Some _ => false
      | None => is_nested f
      end
  end.

(** The field gets its starting fragment without a failure and without the
    nested schemas: from its own [_jsonschema_type_mapping], or from a class
    that [mapping] sends to a key of [TYPE_MAP]. *)
Definition self_contained (obj : schema) (f : field) : bool :=
  match _jsonschema_type_mapping f with
  | Some _ => true
  | None =>
      match assoc_get field_class_eqb (mapping obj) (class_ f) with
      | Some t =>
          match assoc_get pytype_eqb TYPE_MAP t with
          | Some _ => true
          | None => false
          end
      | None => false
      end
  end.

(** A handler that returns or raises on every call. *)
Definition handler_answers
           (h : dict -> field -> validator -> schema -> res dict) : Prop :=
  forall s f v obj, h s f v obj <> Diverge.


(** ** The handlers of [validation.py] *)

Module SpecHandlers.

(** Modelled from the spec: [handle_length] of [validation.py], which is
    not among the sources.  It sets [minLength]/[maxLength], or
    [minItems]/[maxItems] when the fragment's [type] is array-like, and only
    the keys whose bound the constraint gives (min, max, or equal for
    both). *)
Definition handle_length (sch : dict) (f : field) (v : validator)
           (obj : schema) : res dict :=
  let array_like :=
    match dict_get sch "type" with
    | Some (VStr t) => String.eqb t "array"
    | Some (VList (VStr t :: _)) => String.eqb t "array"
    | _ => false
    end in
  let minKey := if array_like then "minItems" else "minLength" in
  let maxKey := if array_like then "maxItems" else "maxLength" in
  match vequal v with
  | Some e => Ok (dict_set (dict_set sch minKey (VInt e)) maxKey (VInt e))
  | None =>
      let sch := match vmin v with
                 | Some m => dict_set sch minKey (VInt m) | None => sch end in
      let sch := match vmax v with
                 | Some m => dict_set sch maxKey (VInt m) | None => sch end in
      Ok sch
  end.

(** Modelled from the spec: [handle_one_of] of [validation.py], which is
    not among the sources.  It sets [enum] to the sequence of the legal
    values. *)
Definition handle_one_of (sch : dict) (f : field) (v : validator)
           (obj : schema) : res dict :=
  Ok (dict_set sch "enum" (VList (vchoices v))).

(** Modelled from the spec: [handle_range] of [validation.py], which is
    not among the sources.  It sets [minimum] or [exclusiveMinimum] and
    [maximum] or [exclusiveMaximum] by the inclusive flags; a range with
    neither bound is malformed and fatal. *)
Definition handle_range (sch : dict) (f : field) (v : validator)
           (obj : schema) : res dict :=
  match vmin v, vmax v with
  | None, None => Raise (OtherError "MalformedConstraintParameters")
  | lo, hi =>
      let sch := match lo with
                 | Some m => dict_set sch (if vmin_inclusive v then "minimum"
                                           else "exclusiveMinimum") (VInt m)
                 | None => sch end in
      let sch := match hi with
                 | Some m => dict_set sch (if vmax_inclusive v then "maximum"
                                           else "exclusiveMaximum") (VInt m)
                 | None => sch end in
      Ok sch
  end.

(** Modelled from the spec: the host framework's [str(field)], which is not
    among the sources; the spec has the error message carry the field's
    name and kind. *)
Definition class_str (c : field_class) : string :=
  match c with
  | Field => "Field" | Raw => "Raw" | Nested => "Nested" | Dict => "Dict"
  | List => "List" | String_ => "String" | UUID => "UUID"
  | Number => "Number" | Integer => "Integer" | Decimal => "Decimal"
  | Boolean => "Boolean" | Float => "Float" | DateTime => "DateTime"
  | LocalDateTime => "LocalDateTime" | Time => "Time" | Date => "Date"
  | TimeDelta => "TimeDelta" | Url => "Url" | Email => "Email"
  | UserClass _ _ => "UserClass"
  end.

Definition field_str (f : field) : string :=
  "<fields." ++ class_str (class_ f) ++ "(name=" ++ name f ++ ")>".

End SpecHandlers.

(** ** Concrete schemas *)

Module Examples.

(** The default [TYPE_MAPPING] of a schema of the host framework. *)
Definition default_TYPE_MAPPING : list (pytype * field_class) :=
  [ (text_type, String_); (binary_type, String_);
    (datetime_datetime, DateTime); (py_float, Float); (py_bool, Boolean);
    (py_tuple, Raw); (py_list, Raw); (py_set, Raw); (py_int, Integer);
    (uuid_UUID, UUID); (datetime_time, Time); (datetime_date, Date);
    (datetime_timedelta, TimeDelta); (decimal_Decimal, Decimal) ].

Definition mk_field (n : string) (c : field_class) (req : bool) : field :=
  {| name := n; attribute := None; class_ := c; default := None;
     required := req; validators := []; metadata := [];
     metadata_dict := None; nested := 0; many := false;
     _jsonschema_type_mapping := None |}.

Definition with_validators := set_validators.

Definition with_metadata (f : field) (md : dict) (sub : option dict) : field :=
  {| name := name f; attribute := attribute f; class_ := class_ f;
     default := default f; required := required f;
     validators := validators f;
     metadata := md; metadata_dict := sub;
     nested := nested f; many := many f;
     _jsonschema_type_mapping := _jsonschema_type_mapping f |}.

Definition nested_field (n : string) (c : field_class) (req : bool)
           (target : nat) (is_many : bool) : field :=
  {| name := n; attribute := None; class_ := c; default := None;
     required := req; validators := []; metadata := [];
     metadata_dict := None; nested := target; many := is_many;
     _jsonschema_type_mapping := None |}.

Definition mk_schema (fs : list field) : schema :=
  {| TYPE_MAPPING := default_TYPE_MAPPING;
     fields := map (fun f => (name f, f)) fs |}.

Definition length_max (n : Z) : validator :=
  {| vclass := Length; vmin := None; vmax := Some n; vequal := None;
     vmin_inclusive := true; vmax_inclusive := true; vchoices := [] |}.

Definition other_validator (n : nat) : validator :=
  {| vclass := OtherValidator n; vmin := None; vmax := None; vequal := None;
     vmin_inclusive := true; vmax_inclusive := true; vchoices := [] |}.

(** The translator with the handlers above. *)
Definition translate (classes : nat -> schema) (fuel : nat) (obj : schema)
  : res dict :=
  dump SpecHandlers.handle_length SpecHandlers.handle_one_of
       SpecHandlers.handle_range SpecHandlers.field_str classes fuel obj.

Definition translate_field (classes : nat -> schema) (fuel : nat)
           (obj : schema) (f : field) : res dict :=
  field_fragment SpecHandlers.handle_length SpecHandlers.handle_one_of
       SpecHandlers.handle_range SpecHandlers.field_str classes
       (translate classes fuel) obj f.

(** A program whose schema class [n + 1] has one [Nested] field that
    refers to the class [n], the class [0] having no field: a chain of
    nested schemas of every depth. *)
Definition chain_classes (n : nat) : schema :=
  {| TYPE_MAPPING := [];
     fields := match n with
               | O => []
               | S k => [("child", nested_field "child" Nested false k false)]
               end |}.

Fixpoint chain_output (n : nat) : dict :=
  [ ("properties",
     VDict match n with
           | O => []
           | S k => [("child", VDict (chain_output k))]
           end);
    ("type", VStr "object");
    ("required", VList []) ].

(** A program whose one schema class has a [Nested] field that refers to
    the class itself. *)
Definition cyclic_classes (n : nat) : schema :=
  {| TYPE_MAPPING := [];
     fields := [("self", nested_field "self" Nested false 0 false)] |}.

Definition no_classes : nat -> schema := fun _ => mk_schema [].

Definition age : field := mk_field "age" Integer true.
Definition name_ : field :=
  with_validators (mk_field "name" String_ false) [length_max 50].

(** The scenario of the specification: a required integer [age] and an
    optional text [name] of at most 50 characters, declared in the other
    order. *)
Definition person : schema := mk_schema [name_; age].

Definition person_output : dict :=
  [ ("properties",
     VDict [ ("age", VDict [ ("title", VStr "age"); ("type", VStr "number");
                             ("format", VStr "integer") ]);
             ("name", VDict [ ("title", VStr "name"); ("type", VStr "string");
                              ("maxLength", VInt 50) ]) ]);
    ("type", VStr "object");
    ("required", VList [VStr "age"]) ].


(** A program whose every schema class is [person], and a schema with a
    required list of persons. *)
Definition team_classes : nat -> schema := fun _ => person.
Definition members : field := nested_field "members" Nested true 0 true.
Definition team : schema := mk_schema [members].

Definition members_titled : field :=
  with_metadata members [("title", VStr "Members")] None.
Definition team_titled : schema := mk_schema [members_titled].

(** A schema whose [TYPE_MAPPING] is the default one with [list] sent to
    [Nested]. *)
Definition team_listed : schema :=
  {| TYPE_MAPPING := assoc_set pytype_eqb default_TYPE_MAPPING py_list Nested;
     fields := [("members", members)] |}.

(** A field of a class that [mapping] does not hold, and a field of a user
    subclass of [String]. *)
Definition amount : field := mk_field "amount" Number false.
Definition ledger : schema := mk_schema [age; amount].
Definition nick : field := mk_field "nick" (UserClass 0 String_) false.
Definition profile : schema := mk_schema [nick].

(** A text field with a direct [title] and a [title] in its [metadata]
    dict, and one with a length bound and an enumeration. *)
Definition labelled : field :=
  with_metadata (mk_field "label" String_ false)
                [("title", VStr "Direct")]
                (Some [("title", VStr "Nested"); ("description", VStr "A label")]).

Definition colour : field :=
  with_validators (mk_field "colour" String_ false)
    [ {| vclass := Length; vmin := Some 2%Z; vmax := Some 10%Z; vequal := None;
         vmin_inclusive := true; vmax_inclusive := true; vchoices := [] |};
      {| vclass := OneOf; vmin := None; vmax := None; vequal := None;
         vmin_inclusive := true; vmax_inclusive := true;
         vchoices := [VStr "red"; VStr "green"] |} ].

Definition name_checked : field :=
  with_validators (mk_field "name" String_ false)
                  [other_validator 7; length_max 50].

(** A schema whose [TYPE_MAPPING] sends a type of its own, which [TYPE_MAP]
    does not know, to a field class of its own. *)
Definition point : field := mk_field "point" (UserClass 1 Field) false.
Definition shape : schema :=
  {| TYPE_MAPPING := [(py_other 0, UserClass 1 Field)];
     fields := [("point", point)] |}.

(** A schema in which one field instance, bound as [shared], stands under
    two keys. *)
Definition shared : field := mk_field "shared" Integer true.
Definition aliased : schema :=
  {| TYPE_MAPPING := default_TYPE_MAPPING;
     fields := [("b", shared); ("a", shared)] |}.

(** A schema with one person, and a program whose every schema class is
    [ledger], which does not translate. *)
Definition owner : field := nested_field "owner" Nested false 0 false.
Definition account : schema := mk_schema [owner].
Definition ledger_classes : nat -> schema := fun _ => ledger.

(** A rendering of a field in the manner of a [__repr__] that lists the
    constructor arguments: the class and the attribute, not the name under
    which the field is bound. *)
Definition field_repr (f : field) : string :=
  "<fields." ++ SpecHandlers.class_str (class_ f) ++ "(attribute=" ++
  match attribute f with Some a => a | None => "None" end ++ ")>".

Definition translate_limited (classes : nat -> schema) (limit : nat)
           (obj : schema) : res dict :=
  dump_limited SpecHandlers.handle_length SpecHandlers.handle_one_of
               SpecHandlers.handle_range SpecHandlers.field_str classes
               limit obj.

(** Two programs whose one schema class refers to itself: in the first a
    field that does not translate is sorted before the [Nested] field, in the
    second the [Nested] field describes itself with
    [_jsonschema_type_mapping]. *)
Definition guarded_classes (n : nat) : schema :=
  {| TYPE_MAPPING := default_TYPE_MAPPING;
     fields := [ ("self", nested_field "self" Nested false 0 false);
                 ("amount", amount) ] |}.

Definition described : field :=
  {| name := "self"; attribute := None; class_ := Nested; default := None;
     required := false; validators := []; metadata := [];
     metadata_dict := None; nested := 0; many := false;
     _jsonschema_type_mapping := Some [("type", VStr "object")] |}.

Definition described_classes (n : nat) : schema :=
  {| TYPE_MAPPING := default_TYPE_MAPPING;
     fields := [("self", described)] |}.

End Examples.

(** * Properties *)

(** ** Dictionaries *)

Section DictFacts.
Context {V : Type}.
Implicit Types (d : list (string * V)) (k : string) (v : V).

Lemma dict_set_fresh d k v : ~ In k (map fst d) -> dict_set d k v = (d ++ [(k, v)])%list.
Proof.
  unfold dict_set. induction d as [|[k' v'] d IH]; simpl; intros H.
  - reflexivity.
  - destruct (String.eqb_spec k' k) as [->|Hne].
    + exfalso; apply H; now left.
    + rewrite IH; [reflexivity | tauto].
Qed.

Lemma dict_get_set_same d k v : dict_get (dict_set d k v) k = Some v.
Proof.
  unfold dict_get, dict_set. induction d as [|[k' v'] d IH]; simpl.
  - now rewrite String.eqb_refl.
  - destruct (String.eqb_spec k' k) as [->|Hne]; simpl.
    + now rewrite String.eqb_refl.
    + destruct (String.eqb_spec k' k); [contradiction | exact IH].
Qed.

Lemma dict_get_set_other d k k' v :
  k <> k' -> dict_get (dict_set d k v) k' = dict_get d k'.
Proof.
  unfold dict_get, dict_set. intros Hne.
  induction d as [|[k0 v0] d IH]; simpl.
  - destruct (String.eqb_spec k k'); [contradiction | reflexivity].
  - destruct (String.eqb_spec k0 k) as [->|Hne0]; simpl.
    + destruct (String.eqb_spec k k'); [contradiction | reflexivity].
    + now rewrite IH.
Qed.

End DictFacts.

(** ** Results *)

Lemma bind_Ok_inv {A B} (m : res A) (k : A -> res B) (b : B) :
  bind m k = Ok b -> exists a, m = Ok a /\ k a = Ok b.
Proof. destruct m; simpl; intros H; try discriminate. now exists a. Qed.

(** ** The order of the items *)

Lemma string_leb_iff (a b : string) :
  String.leb a b = true <-> String_as_OT.lt a b \/ a = b.
Proof.
  unfold String.leb.
  destruct (String.compare a b) eqn:E.
  - apply String_as_OT.cmp_eq in E. tauto.
  - apply String_as_OT.cmp_lt in E. tauto.
  - split; [discriminate|].
    intros [H|H].
    + apply String_as_OT.cmp_lt in H. unfold String_as_OT.cmp in H. congruence.
    + apply String_as_OT.cmp_eq in H. unfold String_as_OT.cmp in H. congruence.
Qed.

Lemma string_leb_trans (a b c : string) :
  String.leb a b = true -> String.leb b c = true -> String.leb a c = true.
Proof.
  rewrite !string_leb_iff. intros [H1| ->] [H2| ->]; auto.
  left. eapply String_as_OT.lt_trans; eassumption.
Qed.

Lemma insert_item_perm x l : Permutation (insert_item x l) (x :: l).
Proof.
  induction l as [|y l IH]; simpl.
  - apply Permutation_refl.
  - destruct (String.leb (fst x) (fst y)).
    + apply Permutation_refl.
    + eapply Permutation_trans; [apply perm_skip, IH | apply perm_swap].
Qed.

Lemma sorted_perm l : Permutation (sorted l) l.
Proof.
  induction l as [|x l IH]; simpl.
  - constructor.
  - eapply Permutation_trans; [apply insert_item_perm | now apply perm_skip].
Qed.

Lemma insert_item_sorted x l :
  StronglySorted key_le l -> StronglySorted key_le (insert_item x l).
Proof.
  induction 1 as [|y l Hs IH Hall]; simpl.
  - repeat constructor.
  - destruct (String.leb (fst x) (fst y)) eqn:E.
    + constructor; [now constructor|].
      constructor; [exact E|].
      eapply Forall_impl; [|exact Hall].
      intros z Hz. unfold key_le in *. eapply string_leb_trans; eassumption.
    + constructor; [exact IH|].
      eapply Permutation_Forall; [apply Permutation_sym, insert_item_perm|].
      constructor; [|exact Hall].
      unfold key_le. destruct (String.leb_total (fst x) (fst y)); congruence.
Qed.

Lemma sorted_sorted l : StronglySorted key_le (sorted l).
Proof.
  induction l; simpl; [constructor | now apply insert_item_sorted].
Qed.



(** ** The translator *)

Section Properties.

Variable handle_length : dict -> field -> validator -> schema -> res dict.
Variable handle_one_of : dict -> field -> validator -> schema -> res dict.
Variable handle_range : dict -> field -> validator -> schema -> res dict.
Variable field_str : field -> string.
Variable classes : nat -> schema.

Local Abbreviation validators_loop :=
  (apply_validators handle_length handle_one_of handle_range).
Local Abbreviation start := (starting_fragment field_str classes).
Local Abbreviation fragment :=
  (field_fragment handle_length handle_one_of handle_range field_str classes).
Local Abbreviation loop :=
  (properties_loop handle_length handle_one_of handle_range field_str classes).
Local Abbreviation properties :=
  (get_properties handle_length handle_one_of handle_range field_str classes).
Local Abbreviation dump1 :=
  (dump_with handle_length handle_one_of handle_range field_str classes).
Local Abbreviation run :=
  (dump handle_length handle_one_of handle_range field_str classes).
Local Abbreviation entry :=
  (entry_of handle_length handle_one_of handle_range field_str classes).

Lemma required_loop_spec l : forall req,
  required_loop l req =
  (req ++ map field_name (filter (fun kf => required (snd kf)) l))%list.
Proof.
  induction l as [|[k f] l IH]; intros req; simpl.
  - now rewrite app_nil_r.
  - rewrite IH. destruct (required f); simpl; [|reflexivity].
    now rewrite <- app_assoc.
Qed.

Lemma loop_Ok_fields d obj l : forall acc p,
  loop d obj l acc = Ok p ->
  Forall (fun kf => exists s, fragment d obj (snd kf) = Ok s) l.
Proof.
  induction l as [|[k f] l IH]; intros acc p H; simpl in H.
  - constructor.
  - apply bind_Ok_inv in H. destruct H as (s & Hs & H).
    constructor; [now exists s | eapply IH; exact H].
Qed.

Lemma loop_Ok_distinct d obj l : forall acc p,
  NoDup (map fst acc ++ map field_name l) ->
  loop d obj l acc = Ok p ->
  p = (acc ++ map (entry d obj) l)%list.
Proof.
  induction l as [|[k f] l IH]; intros acc p ND H; simpl in H.
  - inversion H. now rewrite app_nil_r.
  - apply bind_Ok_inv in H. destruct H as (s & Hs & H).
    assert (Hfresh : ~ In (name f) (map fst acc)).
    { intros I. apply NoDup_remove_2 in ND. apply ND.
      apply in_or_app. now left. }
    rewrite dict_set_fresh in H by exact Hfresh.
    apply IH in H.
    + rewrite H, <- app_assoc. simpl. unfold entry_of at 2, fragment_of.
      simpl. now rewrite Hs.
    + rewrite map_app, <- app_assoc. simpl.
      simpl in ND. unfold field_name at 1 in ND. simpl in ND.
      eapply Permutation_NoDup; [|exact ND].
      apply Permutation_app_head. apply Permutation_refl.
Qed.

Lemma loop_first_failure d obj l1 k f l2 e : forall acc,
  Forall (fun kf => exists s, fragment d obj (snd kf) = Ok s) l1 ->
  fragment d obj f = Raise e ->
  loop d obj (l1 ++ (k, f) :: l2) acc = Raise e.
Proof.
  induction l1 as [|[k1 f1] l1 IH]; intros acc Hall Hf; simpl.
  - now rewrite Hf.
  - inversion Hall as [|? ? [s Hs] Hall']; subst. simpl in Hs.
    rewrite Hs. simpl. now apply IH.
Qed.

Lemma run_Ok_inv fuel obj out :
  run fuel obj = Ok out ->
  exists n props,
    fuel = S n /\ properties (run n) obj = Ok props /\
    out = [ ("properties", VDict props); ("type", VStr "object");
            ("required", VList (map VStr (get_required obj))) ].
Proof.
  destruct fuel as [|n]; simpl; [discriminate|].
  unfold dump_with. intros H. apply bind_Ok_inv in H.
  destruct H as (props & Hp & H). inversion H. now exists n, props.
Qed.

(** A field whose fragment is not produced leaves the whole call without
    output. *)
Lemma run_no_output_of_field fuel obj k f :
  In (k, f) (fields obj) ->
  (forall d s, fragment d obj f <> Ok s) ->
  forall out, run fuel obj <> Ok out.
Proof.
  intros I Hf out H. apply run_Ok_inv in H.
  destruct H as (n & props & _ & Hp & _).
  apply loop_Ok_fields in Hp. rewrite Forall_forall in Hp.
  destruct (Hp (k, f)) as [s Hs].
  - eapply Permutation_in; [apply Permutation_sym, sorted_perm | exact I].
  - exact (Hf _ _ Hs).
Qed.

Lemma validators_loop_app obj f vs1 : forall vs2 s,
  validators_loop obj f (vs1 ++ vs2) s =
  (s' <- validators_loop obj f vs1 s ;; validators_loop obj f vs2 s').
Proof.
  induction vs1 as [|v vs1 IH]; intros vs2 s; simpl.
  - reflexivity.
  - destruct (vclass v); simpl; try apply IH.
    + destruct (handle_length s f v obj); simpl; auto.
    + destruct (handle_one_of s f v obj); simpl; auto.
    + destruct (handle_range s f v obj); simpl; auto.
Qed.

Lemma apply_metadata_eq f s :
  apply_metadata f s =
  let s1 := if truthy (metadata_lookup f "title")
            then dict_set s "title" (metadata_lookup f "title") else s in
  if truthy (metadata_lookup f "description")
  then dict_set s1 "description" (metadata_lookup f "description") else s1.
Proof. reflexivity. Qed.

Lemma unsupported_validator_step obj f v vs s :
  supported_validator (vclass v) = false ->
  validators_loop obj f (v :: vs) s = validators_loop obj f vs s.
Proof. simpl. destruct (vclass v); simpl; intros H; now try discriminate. Qed.

Lemma validators_loop_unsupported obj f vs : forall s,
  Forall (fun v => supported_validator (vclass v) = false) vs ->
  validators_loop obj f vs s = Ok s.
Proof.
  induction vs as [|v vs IH]; intros s H; [reflexivity|].
  inversion H; subst. rewrite unsupported_validator_step by assumption.
  now apply IH.
Qed.

Lemma fragment_unsupported_field d obj f :
  _jsonschema_type_mapping f = None ->
  assoc_get field_class_eqb (mapping obj) (class_ f) = None ->
  is_nested f = false ->
  fragment d obj f =
  Raise (ValueError ("unsupported field type " ++ field_str f)).
Proof.
  intros Ho Hm Hn. unfold field_fragment, starting_fragment.
  now rewrite Ho, Hm, Hn.
Qed.

(** C1: a field with no override, no validators and no metadata whose class
    maps to a native type [t] of [TYPE_MAP] gets exactly [title] (the
    attribute when it is set, else the name), then the keys of
    [TYPE_MAP[t]], then [default] when, and only when, the field declares
    one. *)
Theorem primitive_field_fragment d obj f t m :
  _jsonschema_type_mapping f = None ->
  assoc_get field_class_eqb (mapping obj) (class_ f) = Some t ->
  assoc_get pytype_eqb TYPE_MAP t = Some m ->
  validators f = [] ->
  metadata f = [] ->
  metadata_dict f = None ->
  fragment d obj f =
    Ok ((("title", VStr (attribute_or_name f)) :: m) ++
        match default f with Some v => [("default", v)] | None => [] end)%list
  /\ (attribute f = None -> attribute_or_name f = name f)
  /\ (forall a, attribute f = Some a -> a <> "" -> attribute_or_name f = a).
Proof.
  intros Ho Hc Ht Hv Hmd Hsub. split; [|split].
  - unfold field_fragment, starting_fragment, _from_python_type.
    rewrite Ho, Hc, Ht, Hv. simpl. unfold apply_metadata.
    rewrite Hmd, Hsub. simpl.
    destruct t; simpl in Ht; inversion Ht; subst m;
      destruct (default f); reflexivity.
  - unfold attribute_or_name. now intros ->.
  - unfold attribute_or_name. intros a -> Ha.
    destruct (String.eqb_spec a ""); [contradiction | reflexivity].
Qed.

(** C3, as amended: for a field with no override whose class is not a key
    of [mapping] and that is a [Nested] with [many] set, the nested step
    gives [{"type": ["array"], "items": S'}] when the field is required and
    [{"type": ["array", "null"], "items": S'}] when it is not, [S'] being
    the translation of the nested schema; the validators and the metadata
    are then applied to it, so it is the field's final fragment when the
    field has no supported validator and no truthy [title] or
    [description]. *)
Theorem nested_many_fragment n obj f sch :
  _jsonschema_type_mapping f = None ->
  assoc_get field_class_eqb (mapping obj) (class_ f) = None ->
  is_nested f = true ->
  many f = true ->
  run n (classes (nested f)) = Ok sch ->
  _from_nested_schema classes (run n) f = Ok (array_fragment (required f) sch)
  /\ start (run n) obj f = Ok (array_fragment (required f) sch)
  /\ fragment (run n) obj f =
     (s <- validators_loop obj f (validators f)
                           (array_fragment (required f) sch) ;;
      Ok (apply_metadata f s))
  /\ (Forall (fun v => supported_validator (vclass v) = false) (validators f) ->
      truthy (metadata_lookup f "title") = false ->
      truthy (metadata_lookup f "description") = false ->
      fragment (run n) obj f = Ok (array_fragment (required f) sch)).
Proof.
  intros Ho Hc Hn Hm Hs.
  assert (E1 : _from_nested_schema classes (run n) f
               = Ok (array_fragment (required f) sch)).
  { unfold _from_nested_schema. rewrite Hs. simpl. now rewrite Hm. }
  assert (E2 : start (run n) obj f = Ok (array_fragment (required f) sch)).
  { unfold starting_fragment. now rewrite Ho, Hc, Hn. }
  repeat split; auto.
  - unfold field_fragment. now rewrite E2.
  - intros Hv Ht Hd. unfold field_fragment. rewrite E2. simpl.
    rewrite validators_loop_unsupported by exact Hv. simpl.
    rewrite apply_metadata_eq. simpl. now rewrite Ht, Hd.
Qed.

(** C4: [apply_metadata] takes [title] and [description] from the direct
    keys of the field's metadata and from its [metadata] dict, the direct
    key first; it sets a key of the fragment when, and only when, the value
    found is truthy and changes nothing else; and it is the last step of a
    field's translation, so a truthy value replaces whatever the earlier
    steps put under that key. *)
Theorem metadata_merger f :
  (forall k v, dict_get (metadata f) k = Some v -> metadata_lookup f k = v)
  /\ (forall k sub v,
        dict_get (metadata f) k = None -> metadata_dict f = Some sub ->
        dict_get sub k = Some v -> metadata_lookup f k = v)
  /\ (forall k,
        dict_get (metadata f) k = None ->
        (forall sub, metadata_dict f = Some sub -> dict_get sub k = None) ->
        metadata_lookup f k = VNone)
  /\ (forall s,
        apply_metadata f s =
        let s1 := if truthy (metadata_lookup f "title")
                  then dict_set s "title" (metadata_lookup f "title") else s in
        if truthy (metadata_lookup f "description")
        then dict_set s1 "description" (metadata_lookup f "description")
        else s1)
  /\ (forall s k,
        k = "title" \/ k = "description" ->
        dict_get (apply_metadata f s) k =
        if truthy (metadata_lookup f k) then Some (metadata_lookup f k)
        else dict_get s k)
  /\ (forall s k,
        k <> "title" -> k <> "description" ->
        dict_get (apply_metadata f s) k = dict_get s k)
  /\ (forall s,
        truthy (metadata_lookup f "title") = false ->
        truthy (metadata_lookup f "description") = false ->
        apply_metadata f s = s)
  /\ (forall d obj frag,
        fragment d obj f = Ok frag ->
        exists s0 s1,
          start d obj f = Ok s0 /\
          validators_loop obj f (validators f) s0 = Ok s1 /\
          frag = apply_metadata f s1).
Proof.
  repeat split.
  - intros k v H. unfold metadata_lookup. now rewrite H.
  - intros k sub v H Hs Hv. unfold metadata_lookup. now rewrite H, Hs, Hv.
  - intros k H Hs. unfold metadata_lookup. rewrite H.
    destruct (metadata_dict f) as [sub|]; [|reflexivity].
    now rewrite (Hs sub eq_refl).
  - intros s k [-> | ->]; rewrite apply_metadata_eq; simpl.
    + destruct (truthy (metadata_lookup f "title")),
               (truthy (metadata_lookup f "description"));
        rewrite ?dict_get_set_other by discriminate;
        rewrite ?dict_get_set_same; reflexivity.
    + destruct (truthy (metadata_lookup f "title")),
               (truthy (metadata_lookup f "description"));
        rewrite ?dict_get_set_same;
        rewrite ?dict_get_set_other by discriminate; reflexivity.
  - intros s k H1 H2. rewrite apply_metadata_eq; simpl.
    destruct (truthy (metadata_lookup f "title")),
             (truthy (metadata_lookup f "description"));
      rewrite ?dict_get_set_other by congruence; reflexivity.
  - intros s H1 H2. rewrite apply_metadata_eq; simpl. now rewrite H1, H2.
  - intros d obj frag H. unfold field_fragment in H.
    apply bind_Ok_inv in H. destruct H as (s0 & H0 & H).
    apply bind_Ok_inv in H. destruct H as (s1 & H1 & H).
    inversion H. now exists s0, s1.
Qed.

Lemma start_set_validators d obj f vs s :
  start d obj (set_validators f vs) = Ok s <-> start d obj f = Ok s.
Proof.
  unfold starting_fragment, is_nested, _from_nested_schema,
    _from_python_type, attribute_or_name. simpl.
  destruct (_jsonschema_type_mapping f); [tauto|].
  destruct (assoc_get field_class_eqb (mapping obj) (class_ f)); [tauto|].
  destruct (issubclass (class_ f) Nested); [tauto|].
  split; discriminate.
Qed.

Lemma validators_loop_set_validators obj f vs0 vs :
  ignores_validators handle_length -> ignores_validators handle_one_of ->
  ignores_validators handle_range ->
  forall s,
    validators_loop obj (set_validators f vs0) vs s =
    validators_loop obj f vs s.
Proof.
  intros Hl Ho Hr. induction vs as [|v vs IH]; intros s; [reflexivity|].
  simpl. destruct (vclass v); simpl; auto.
  - rewrite Hl. destruct (handle_length s f v obj); simpl; auto.
  - rewrite Ho. destruct (handle_one_of s f v obj); simpl; auto.
  - rewrite Hr. destruct (handle_range s f v obj); simpl; auto.
Qed.

Lemma contains_append (p s sub : string) :
  contains sub s = true -> contains sub (p ++ s) = true.
Proof.
  intros H. induction p as [|c p IH]; simpl; [exact H|].
  rewrite IH. apply orb_true_r.
Qed.

Lemma prefix_append (p s : string) : String.prefix p (p ++ s) = true.
Proof.
  induction p as [|c p IH]; simpl; [now destruct s|].
  destruct (ascii_dec c c); [exact IH | contradiction].
Qed.

(** C5, as amended: a field with no override whose class is not a key of
    [mapping] and that is not a [Nested] fails with a [ValueError]; a schema
    that holds such a field never yields an output, whole or partial, and the
    call raises that error when the fields sorted before it translate.  The
    message is [unsupported field type] followed by [str(field)]: it holds
    every text that the host framework's rendering of the field holds, and so
    the field's kind and name as far as that rendering shows them. *)
Theorem unsupported_field_error obj k f :
  In (k, f) (fields obj) ->
  _jsonschema_type_mapping f = None ->
  assoc_get field_class_eqb (mapping obj) (class_ f) = None ->
  is_nested f = false ->
  (forall d, fragment d obj f =
             Raise (ValueError ("unsupported field type " ++ field_str f)))
  /\ (forall fuel out, run fuel obj <> Ok out)
  /\ (forall d l1 l2,
        sorted (fields obj) = (l1 ++ (k, f) :: l2)%list ->
        Forall (fun kf => exists s, fragment d obj (snd kf) = Ok s) l1 ->
        dump1 d obj =
        Raise (ValueError ("unsupported field type " ++ field_str f)))
  /\ String.prefix "unsupported field type "
                   ("unsupported field type " ++ field_str f) = true
  /\ (forall sub,
        contains sub (field_str f) = true ->
        contains sub ("unsupported field type " ++ field_str f) = true).
Proof.
  intros I Ho Hm Hn.
  assert (E : forall d, fragment d obj f =
               Raise (ValueError ("unsupported field type " ++ field_str f)))
    by (intros d; now apply fragment_unsupported_field).
  split; [exact E | split; [|split; [|split]]].
  - intros fuel. apply run_no_output_of_field with (k := k) (f := f); auto.
    intros d s. rewrite E. discriminate.
  - intros d l1 l2 Hs Hall. unfold dump_with, get_properties.
    rewrite Hs. erewrite loop_first_failure; [reflexivity | exact Hall | apply E].
  - apply prefix_append.
  - intros sub. apply contains_append.
Qed.

(** C6, as amended: the starting fragment of a field is resolved in this
    order, the first match winning: the field's own
    [_jsonschema_type_mapping] verbatim; else, when the field's class is a
    key of [mapping], [_from_python_type] on the mapped type (also for an
    instance of [Nested]); else, for an instance of [Nested],
    [_from_nested_schema]; else the unsupported-field error. *)
Theorem starting_fragment_resolution d obj f :
  (forall o, _jsonschema_type_mapping f = Some o -> start d obj f = Ok o)
  /\ (forall t,
        _jsonschema_type_mapping f = None ->
        assoc_get field_class_eqb (mapping obj) (class_ f) = Some t ->
        start d obj f = _from_python_type f t)
  /\ (_jsonschema_type_mapping f = None ->
      assoc_get field_class_eqb (mapping obj) (class_ f) = None ->
      is_nested f = true ->
      start d obj f = _from_nested_schema classes d f)
  /\ (_jsonschema_type_mapping f = None ->
      assoc_get field_class_eqb (mapping obj) (class_ f) = None ->
      is_nested f = false ->
      start d obj f =
      Raise (ValueError ("unsupported field type " ++ field_str f)))
  /\ fragment d obj f =
     (s0 <- start d obj f ;;
      s1 <- validators_loop obj f (validators f) s0 ;;
      Ok (apply_metadata f s1)).
Proof.
  unfold starting_fragment. repeat split.
  - now intros o ->.
  - now intros t -> ->.
  - now intros -> -> ->.
  - now intros -> -> ->.
Qed.

(** C7: a validator whose class is not a key of [FIELD_VALIDATORS] is
    skipped: the loop over the validators, and with it the field's
    fragment, is what it is over the list without that validator, with no
    error of its own; and with handlers that do not read the field's
    validator list, the field translates to a fragment exactly when the
    field without that validator translates to it. *)
Theorem unsupported_validator_skipped obj f v vs1 vs2 :
  supported_validator (vclass v) = false ->
  validators f = (vs1 ++ v :: vs2)%list ->
  (forall s, validators_loop obj f (vs1 ++ v :: vs2) s =
             validators_loop obj f (vs1 ++ vs2) s)
  /\ (forall d, fragment d obj f =
                (s0 <- start d obj f ;;
                 s1 <- validators_loop obj f (vs1 ++ vs2) s0 ;;
                 Ok (apply_metadata f s1)))
  /\ (ignores_validators handle_length ->
      ignores_validators handle_one_of ->
      ignores_validators handle_range ->
      forall d s,
        fragment d obj f = Ok s <->
        fragment d obj (set_validators f (vs1 ++ vs2)) = Ok s).
Proof.
  intros Hv Hf.
  assert (E : forall s, validators_loop obj f (vs1 ++ v :: vs2) s =
                        validators_loop obj f (vs1 ++ vs2) s).
  { intros s. rewrite !validators_loop_app.
    destruct (validators_loop obj f vs1 s); simpl; auto.
    now apply unsupported_validator_step. }
  assert (F : forall d, fragment d obj f =
                (s0 <- start d obj f ;;
                 s1 <- validators_loop obj f (vs1 ++ vs2) s0 ;;
                 Ok (apply_metadata f s1))).
  { intros d. unfold field_fragment. rewrite Hf.
    destruct (start d obj f); simpl; auto. now rewrite E. }
  split; [exact E | split; [exact F|]].
  intros Hl Ho Hr d s. rewrite F. unfold field_fragment.
  change (validators (set_validators f (vs1 ++ vs2))) with (vs1 ++ vs2)%list.
  destruct (start d obj f) as [s0| |] eqn:E0.
  - apply (start_set_validators d obj f (vs1 ++ vs2)) in E0. rewrite E0.
    simpl. rewrite validators_loop_set_validators by assumption.
    reflexivity.
  - destruct (start d obj (set_validators f (vs1 ++ vs2))) as [s0'| |] eqn:E1;
      [apply start_set_validators in E1; congruence | |];
      simpl; split; discriminate.
  - destruct (start d obj (set_validators f (vs1 ++ vs2))) as [s0'| |] eqn:E1;
      [apply start_set_validators in E1; congruence | |];
      simpl; split; discriminate.
Qed.

(** C10: the class of a field is looked up in [mapping] as it is, without
    its ancestors: a field of a strict subclass of a mapped class, with no
    entry of its own, no override and not a [Nested], does not get the
    fragment of the parent class; it fails with the unsupported-field
    error, and its schema yields no output. *)
Theorem subclass_not_dispatched obj k f parent t :
  In (k, f) (fields obj) ->
  In parent (ancestors (class_ f)) ->
  assoc_get field_class_eqb (mapping obj) parent = Some t ->
  assoc_get field_class_eqb (mapping obj) (class_ f) = None ->
  _jsonschema_type_mapping f = None ->
  is_nested f = false ->
  (forall d, start d obj f =
             Raise (ValueError ("unsupported field type " ++ field_str f)))
  /\ (forall d, start d obj f <> _from_python_type f t)
  /\ (forall d, fragment d obj f =
                Raise (ValueError ("unsupported field type " ++ field_str f)))
  /\ (forall fuel out, run fuel obj <> Ok out).
Proof.
  intros I Ha Hp Hm Ho Hn.
  assert (E : forall d, start d obj f =
               Raise (ValueError ("unsupported field type " ++ field_str f))).
  { intros d. unfold starting_fragment. now rewrite Ho, Hm, Hn. }
  assert (F : forall d, fragment d obj f =
               Raise (ValueError ("unsupported field type " ++ field_str f)))
    by (intros d; now apply fragment_unsupported_field).
  repeat split; auto.
  - intros d. rewrite E. unfold _from_python_type.
    destruct (assoc_get pytype_eqb TYPE_MAP t); discriminate.
  - intros fuel. apply run_no_output_of_field with (k := k) (f := f); auto.
    intros d s. rewrite F. discriminate.
Qed.

Lemma dict_get_In {V} (l : list (string * V)) k v :
  NoDup (map fst l) -> In (k, v) l -> dict_get l k = Some v.
Proof.
  unfold dict_get. induction l as [|[k0 v0] l IH]; simpl; intros ND I.
  - contradiction.
  - inversion ND as [|? ? Hn ND']; subst.
    destruct I as [E|I].
    + inversion E; subst. now rewrite String.eqb_refl.
    + destruct (String.eqb_spec k0 k) as [->|]; [|now apply IH].
      exfalso. apply Hn. change k with (fst (k, v)). now apply in_map.
Qed.

Lemma NoDup_map_filter {A B} (g : A -> B) (p : A -> bool) l :
  NoDup (map g l) -> NoDup (map g (filter p l)).
Proof.
  induction l as [|a l IH]; simpl; intros ND; [constructor|].
  inversion ND as [|? ? Hn ND']; subst.
  destruct (p a); simpl; [|now apply IH].
  constructor; [|now apply IH].
  intros I. apply Hn. apply in_map_iff in I. destruct I as (x & E & I).
  apply filter_In in I. apply in_map_iff. exists x. tauto.
Qed.





Lemma get_required_eq obj :
  get_required obj =
  map field_name (filter (fun kf => required (snd kf)) (sorted (fields obj))).
Proof. unfold get_required. now rewrite required_loop_spec. Qed.






End Properties.

(** ** The depth of the recursion *)

Section Recursion.

Variable handle_length : dict -> field -> validator -> schema -> res dict.
Variable handle_one_of : dict -> field -> validator -> schema -> res dict.
Variable handle_range : dict -> field -> validator -> schema -> res dict.
Variable field_str : field -> string.

Local Abbreviation run :=
  (dump handle_length handle_one_of handle_range field_str).
Local Abbreviation loop :=
  (properties_loop handle_length handle_one_of handle_range field_str).
Local Abbreviation fragment :=
  (field_fragment handle_length handle_one_of handle_range field_str).

Lemma fragment_mono classes (d d' : schema -> res dict) obj f :
  (forall x, answers (d x) -> d' x = d x) ->
  answers (fragment classes d obj f) ->
  fragment classes d' obj f = fragment classes d obj f.
Proof.
  intros Hd. unfold field_fragment, starting_fragment, _from_nested_schema.
  destruct (_jsonschema_type_mapping f); [reflexivity|].
  destruct (assoc_get field_class_eqb (mapping obj) (class_ f)); [reflexivity|].
  destruct (is_nested f); [|reflexivity].
  intros H. rewrite Hd; [reflexivity|].
  intros E. apply H. now rewrite E.
Qed.

Lemma loop_mono classes (d d' : schema -> res dict) obj l :
  (forall x, answers (d x) -> d' x = d x) ->
  forall acc, answers (loop classes d obj l acc) ->
              loop classes d' obj l acc = loop classes d obj l acc.
Proof.
  intros Hd. induction l as [|[k f] l IH]; intros acc H; simpl in *.
  - reflexivity.
  - assert (Hf : answers (fragment classes d obj f)).
    { intros E. apply H. now rewrite E. }
    rewrite (fragment_mono classes d d' obj f Hd Hf).
    destruct (fragment classes d obj f); simpl in *; auto.
Qed.

Lemma run_S classes n obj :
  run classes (S n) obj =
  dump_with handle_length handle_one_of handle_range field_str classes
            (run classes n) obj.
Proof. reflexivity. Qed.

(** A larger budget does not change the answer of a run. *)
Lemma run_mono classes fuel : forall obj,
  answers (run classes fuel obj) ->
  run classes (S fuel) obj = run classes fuel obj.
Proof.
  induction fuel as [|n IH]; intros obj H.
  - now contradiction H.
  - rewrite (run_S classes (S n)). rewrite (run_S classes n) in H |- *.
    unfold dump_with, get_properties in *.
    rewrite (loop_mono classes (run classes n) (run classes (S n)) obj);
      [reflexivity | exact IH |].
    intros E. apply H. now rewrite E.
Qed.

Lemma chain_run n :
  run Examples.chain_classes (S n) (Examples.chain_classes n) =
  Ok (Examples.chain_output n).
Proof.
  induction n as [|n IH]; [reflexivity|].
  change (run Examples.chain_classes (S (S n)) (Examples.chain_classes (S n)))
    with (dump_with handle_length handle_one_of handle_range field_str
            Examples.chain_classes (run Examples.chain_classes (S n))
            (Examples.chain_classes (S n))).
  unfold dump_with, get_properties. cbn [Examples.chain_classes fields sorted
    insert_item properties_loop snd].
  unfold field_fragment, starting_fragment, _from_nested_schema.
  cbn [Examples.nested_field _jsonschema_type_mapping class_ nested many
       validators apply_validators name].
  change (assoc_get field_class_eqb (mapping (Examples.chain_classes (S n))) Nested)
    with (@None pytype).
  change (is_nested (Examples.nested_field "child" Nested false n false))
    with true.
  cbv iota. rewrite IH. reflexivity.
Qed.

Lemma chain_short n : forall fuel,
  fuel <= n ->
  run Examples.chain_classes fuel (Examples.chain_classes n) = Diverge.
Proof.
  induction n as [|n IH]; intros fuel Hle.
  - now replace fuel with 0 by lia.
  - destruct fuel as [|fuel]; [reflexivity|].
    change (run Examples.chain_classes (S fuel) (Examples.chain_classes (S n)))
      with (dump_with handle_length handle_one_of handle_range field_str
              Examples.chain_classes (run Examples.chain_classes fuel)
              (Examples.chain_classes (S n))).
    unfold dump_with, get_properties. cbn [Examples.chain_classes fields sorted
      insert_item properties_loop snd].
    unfold field_fragment, starting_fragment, _from_nested_schema.
    cbn [Examples.nested_field _jsonschema_type_mapping class_ nested many
         validators apply_validators name].
    change (assoc_get field_class_eqb (mapping (Examples.chain_classes (S n))) Nested)
      with (@None pytype).
    change (is_nested (Examples.nested_field "child" Nested false n false))
      with true.
    cbv iota. rewrite IH by lia. reflexivity.
Qed.

Lemma cyclic_run fuel :
  run Examples.cyclic_classes fuel (Examples.cyclic_classes 0) = Diverge.
Proof.
  induction fuel as [|fuel IH]; [reflexivity|].
  change (run Examples.cyclic_classes (S fuel) (Examples.cyclic_classes 0))
    with (dump_with handle_length handle_one_of handle_range field_str
            Examples.cyclic_classes (run Examples.cyclic_classes fuel)
            (Examples.cyclic_classes 0)).
  unfold dump_with, get_properties. cbn [Examples.cyclic_classes fields sorted
    insert_item properties_loop snd].
  unfold field_fragment, starting_fragment, _from_nested_schema.
  cbn [Examples.nested_field _jsonschema_type_mapping class_ nested many
       validators apply_validators name].
  change (assoc_get field_class_eqb (mapping (Examples.cyclic_classes 0)) Nested)
    with (@None pytype).
  change (is_nested (Examples.nested_field "self" Nested false 0 false))
    with true.
  cbv iota. rewrite IH. reflexivity.
Qed.

Lemma run_mono_add classes fuel obj :
  answers (run classes fuel obj) ->
  forall k, run classes (fuel + k) obj = run classes fuel obj.
Proof.
  intros H k. induction k as [|k IH].
  - now rewrite Nat.add_0_r.
  - rewrite Nat.add_succ_r, run_mono; [exact IH|]. now rewrite IH.
Qed.


End Recursion.

(** ** Instances *)

Import Examples.

(** The scenario of the specification translates to the document the
    specification gives for it. *)
Example person_translation : translate no_classes 1 person = Ok person_output.
Proof. reflexivity. Qed.

Example labelled_fragment :
  translate_field no_classes 0 person labelled =
  Ok [ ("title", VStr "Direct"); ("type", VStr "string");
       ("description", VStr "A label") ].
Proof. reflexivity. Qed.

Example colour_fragment :
  translate_field no_classes 0 person colour =
  Ok [ ("title", VStr "colour"); ("type", VStr "string");
       ("minLength", VInt 2); ("maxLength", VInt 10);
       ("enum", VList [VStr "red"; VStr "green"]) ].
Proof. reflexivity. Qed.



Lemma primitive_field_fragment_witness :
  translate_field no_classes 0 person age =
  Ok [ ("title", VStr "age"); ("type", VStr "number");
       ("format", VStr "integer") ].
Proof.
  exact (proj1 (@primitive_field_fragment
                  SpecHandlers.handle_length SpecHandlers.handle_one_of
                  SpecHandlers.handle_range SpecHandlers.field_str no_classes
                  (translate no_classes 0) person age py_int
                  [("type", VStr "number"); ("format", VStr "integer")]
                  eq_refl eq_refl eq_refl eq_refl eq_refl eq_refl)).
Defined.


Lemma nested_many_fragment_witness :
  translate_field team_classes 1 team members =
  Ok [ ("type", VList [VStr "array"]); ("items", VDict person_output) ].
Proof.
  refine (proj2 (proj2 (proj2 (@nested_many_fragment
            SpecHandlers.handle_length SpecHandlers.handle_one_of
            SpecHandlers.handle_range SpecHandlers.field_str team_classes
            1 team members person_output
            eq_refl eq_refl eq_refl eq_refl eq_refl))) _ eq_refl eq_refl).
  constructor.
Defined.

(** C3: a required [Nested] field with [many] and a [title] in its metadata
    does not translate to [{"type": ["array"], "items": ...}] alone: the
    fragment carries the [title] as well. *)
Lemma nested_many_fragment_counterexample :
  is_nested members_titled = true /\
  many members_titled = true /\
  required members_titled = true /\
  translate team_classes 1 (team_classes (nested members_titled)) =
    Ok person_output /\
  translate_field team_classes 1 team_titled members_titled =
    Ok [ ("type", VList [VStr "array"]); ("items", VDict person_output);
         ("title", VStr "Members") ] /\
  translate_field team_classes 1 team_titled members_titled <>
    Ok [ ("type", VList [VStr "array"]); ("items", VDict person_output) ].
Proof. repeat split; discriminate. Qed.

Lemma unsupported_field_error_witness :
  dump SpecHandlers.handle_length SpecHandlers.handle_one_of
       SpecHandlers.handle_range field_repr no_classes 1 ledger =
  Raise (ValueError "unsupported field type <fields.Number(attribute=None)>")
  /\ contains "Number" "unsupported field type <fields.Number(attribute=None)>"
     = true.
Proof.
  pose proof (@unsupported_field_error
            SpecHandlers.handle_length SpecHandlers.handle_one_of
            SpecHandlers.handle_range field_repr no_classes
            ledger "amount" amount (or_intror (or_introl eq_refl))
            eq_refl eq_refl eq_refl) as (_ & _ & H3 & _ & H5).
  split.
  - apply (H3 (dump SpecHandlers.handle_length SpecHandlers.handle_one_of
                    SpecHandlers.handle_range field_repr no_classes 0)
              [("age", age)] [] eq_refl).
    constructor; [|constructor]. eexists. reflexivity.
  - apply (H5 "Number"). reflexivity.
Defined.

(** C5: a [Nested] field has no override and its class is not a key of
    [mapping], and its native type has no entry in [TYPE_MAP] since it has
    none; yet its schema translates.  And the message of the error is as the
    host framework renders the field: with a rendering that shows the class
    and the attribute, the message for the field [amount] does not hold its
    name. *)
Lemma unsupported_field_counterexample :
  _jsonschema_type_mapping members = None /\
  assoc_get field_class_eqb (mapping team) (class_ members) = None /\
  translate team_classes 2 team =
    Ok [ ("properties",
          VDict [ ("members",
                   VDict [ ("type", VList [VStr "array"]);
                           ("items", VDict person_output) ]) ]);
         ("type", VStr "object");
         ("required", VList [VStr "members"]) ] /\
  dump SpecHandlers.handle_length SpecHandlers.handle_one_of
       SpecHandlers.handle_range field_repr no_classes 1 ledger =
    Raise (ValueError "unsupported field type <fields.Number(attribute=None)>") /\
  contains (name amount)
           "unsupported field type <fields.Number(attribute=None)>" = false.
Proof. repeat split. Qed.

(** C6: for a [Nested] field whose class is a key of [mapping], the type
    mapping wins over the recursion into the nested schema. *)
Lemma resolution_order_counterexample :
  _jsonschema_type_mapping members = None /\
  is_nested members = true /\
  _from_nested_schema team_classes (translate team_classes 1) members =
    Ok [ ("type", VList [VStr "array"]); ("items", VDict person_output) ] /\
  starting_fragment SpecHandlers.field_str team_classes
                    (translate team_classes 1) team_listed members =
    Ok [ ("title", VStr "members"); ("type", VStr "array") ] /\
  starting_fragment SpecHandlers.field_str team_classes
                    (translate team_classes 1) team_listed members <>
  _from_nested_schema team_classes (translate team_classes 1) members.
Proof. repeat split; discriminate. Qed.

Lemma unsupported_validator_skipped_witness :
  translate_field no_classes 0 person name_checked =
  Ok [ ("title", VStr "name"); ("type", VStr "string"); ("maxLength", VInt 50) ]
  /\ translate_field no_classes 0 person name_ =
     translate_field no_classes 0 person name_checked.
Proof.
  pose proof (@unsupported_validator_skipped
                SpecHandlers.handle_length SpecHandlers.handle_one_of
                SpecHandlers.handle_range SpecHandlers.field_str no_classes
                person name_checked (other_validator 7) [] [length_max 50]
                eq_refl eq_refl) as (_ & F & _).
  split.
  - exact (F (translate no_classes 0)).
  - symmetry. exact (F (translate no_classes 0)).
Defined.



Lemma subclass_not_dispatched_witness :
  translate_field no_classes 0 profile nick =
  Raise (ValueError "unsupported field type <fields.UserClass(name=nick)>").
Proof.
  refine (proj1 (proj2 (proj2 (@subclass_not_dispatched
            SpecHandlers.handle_length SpecHandlers.handle_one_of
            SpecHandlers.handle_range SpecHandlers.field_str no_classes
            profile "nick" nick String_ binary_type
            _ _ eq_refl eq_refl eq_refl eq_refl))) (translate no_classes 0)).
  - simpl. tauto.
  - simpl. tauto.
Defined.

(** * Further properties of [base.py] *)

(** ** The dictionary [mapping] *)

Lemma field_class_eqb_eq c : forall d, field_class_eqb c d = true <-> c = d.
Proof.
  induction c as [| | | | | | | | | | | | | | | | | | |n base IH];
    intros d; destruct d; simpl; split; intros H;
    try reflexivity; try discriminate.
  - apply andb_true_iff in H. destruct H as [Hn Hb].
    apply Nat.eqb_eq in Hn. apply IH in Hb. now subst.
  - inversion H; subst. apply andb_true_iff. split.
    + apply Nat.eqb_refl.
    + now apply IH.
Qed.

Lemma field_class_eqb_refl c : field_class_eqb c c = true.
Proof. now apply field_class_eqb_eq. Qed.

Lemma field_class_eqb_neq c d : c <> d -> field_class_eqb c d = false.
Proof.
  intros H. destruct (field_class_eqb c d) eqn:E; [|reflexivity].
  apply field_class_eqb_eq in E. contradiction.
Qed.

Section MappingFacts.
Context {V : Type}.
Implicit Types (m : list (field_class * V)) (c : field_class) (v : V).

Lemma class_get_set_same m c v :
  assoc_get field_class_eqb (assoc_set field_class_eqb m c v) c = Some v.
Proof.
  induction m as [|[c0 v0] m IH]; simpl.
  - now rewrite field_class_eqb_refl.
  - destruct (field_class_eqb c0 c) eqn:E; simpl; rewrite E; auto.
Qed.

Lemma class_get_set_other m c c' v :
  c <> c' ->
  assoc_get field_class_eqb (assoc_set field_class_eqb m c v) c' =
  assoc_get field_class_eqb m c'.
Proof.
  intros Hne. induction m as [|[c0 v0] m IH]; simpl.
  - now rewrite field_class_eqb_neq.
  - destruct (field_class_eqb c0 c) eqn:E; simpl.
    + apply field_class_eqb_eq in E. subst c0.
      now rewrite field_class_eqb_neq.
    + now rewrite IH.
Qed.
End MappingFacts.

(** The dict comprehension [{v: k for k, v in items}], started from [acc]. *)
Lemma inverse_lookup (l : list (pytype * field_class)) c :
  forall acc,
    let m := fold_left
               (fun a kv => assoc_set field_class_eqb a (snd kv) (fst kv)) l acc in
    (assoc_get field_class_eqb m c = None <->
     assoc_get field_class_eqb acc c = None /\ ~ In c (map snd l))
    /\ (forall t, assoc_get field_class_eqb m c = Some t ->
                  assoc_get field_class_eqb acc c = Some t \/ In (t, c) l)
    /\ (forall l1 t l2, l = (l1 ++ (t, c) :: l2)%list -> ~ In c (map snd l2) ->
                        assoc_get field_class_eqb m c = Some t).
Proof.
  induction l as [|[t0 c0] l IH]; intros acc; simpl.
  - split; [tauto | split; [auto|]].
    intros l1 t l2 E. destruct l1; discriminate.
  - specialize (IH (assoc_set field_class_eqb acc c0 t0)). simpl in IH.
    destruct IH as (IH1 & IH2 & IH3).
    destruct (field_class_eqb c0 c) eqn:E.
    + apply field_class_eqb_eq in E. subst c0.
      rewrite class_get_set_same in IH1, IH2. split; [|split].
      * rewrite IH1. split; [intros [H _]; discriminate | intros [_ H]].
        exfalso. apply H. now left.
      * intros t Ht. apply IH2 in Ht. destruct Ht as [Ht|Ht].
        -- inversion Ht; subst. right. now left.
        -- right. now right.
      * intros l1 t l2 El Hn. destruct l1 as [|x l1]; simpl in El.
        -- inversion El; subst.
           destruct (assoc_get field_class_eqb
                       (fold_left (fun a kv => assoc_set field_class_eqb a (snd kv) (fst kv))
                                  l2 (assoc_set field_class_eqb acc c t)) c) eqn:G.
           ++ destruct (IH2 p eq_refl) as [G'|G']; [congruence|].
              exfalso. apply Hn. change c with (snd (p, c)). now apply in_map.
           ++ destruct (proj1 IH1 eq_refl); discriminate.
        -- inversion El; subst. eapply IH3; [reflexivity | exact Hn].
    + assert (Hne : c0 <> c) by (intros ->; now rewrite field_class_eqb_refl in E).
      rewrite class_get_set_other in IH1, IH2 by exact Hne. split; [|split].
      * rewrite IH1. intuition.
      * intros t Ht. apply IH2 in Ht. destruct Ht; [now left | right; now right].
      * intros l1 t l2 El Hn. destruct l1 as [|x l1]; simpl in El.
        -- inversion El; subst. contradiction.
        -- inversion El; subst. eapply IH3; [reflexivity | exact Hn].
Qed.

(** X1: whatever a schema's [TYPE_MAPPING] says, [mapping] sends [Email] and
    [Url] to the text type, [Dict] to [dict], [List] to [list] and
    [LocalDateTime] to [datetime]: the five assignments come after the
    inversion and replace what it gave. *)
Theorem mapping_own_entries obj :
  assoc_get field_class_eqb (mapping obj) Email = Some text_type
  /\ assoc_get field_class_eqb (mapping obj) Dict = Some py_dict
  /\ assoc_get field_class_eqb (mapping obj) List = Some py_list
  /\ assoc_get field_class_eqb (mapping obj) Url = Some text_type
  /\ assoc_get field_class_eqb (mapping obj) LocalDateTime = Some datetime_datetime.
Proof.
  unfold mapping.
  repeat split;
    repeat first [ apply class_get_set_same
                 | rewrite class_get_set_other by discriminate ].
Qed.

(** X2: for a class other than those five, [mapping] is the inverse of
    [TYPE_MAPPING]: the class is a key exactly when it is a value of
    [TYPE_MAPPING], it is sent to a type that [TYPE_MAPPING] sends to it, and
    when several types are sent to the class the last of them wins. *)
Theorem mapping_inverts_TYPE_MAPPING obj c :
  ~ In c own_classes ->
  (assoc_get field_class_eqb (mapping obj) c = None <->
   ~ In c (map snd (TYPE_MAPPING obj)))
  /\ (forall t, assoc_get field_class_eqb (mapping obj) c = Some t ->
                In (t, c) (TYPE_MAPPING obj))
  /\ (forall l1 t l2,
        TYPE_MAPPING obj = (l1 ++ (t, c) :: l2)%list ->
        ~ In c (map snd l2) ->
        assoc_get field_class_eqb (mapping obj) c = Some t).
Proof.
  intros Hc.
  assert (E : assoc_get field_class_eqb (mapping obj) c =
              assoc_get field_class_eqb
                (fold_left (fun a kv => assoc_set field_class_eqb a (snd kv) (fst kv))
                           (TYPE_MAPPING obj) []) c).
  { unfold mapping.
    rewrite !class_get_set_other; [reflexivity | | | | |];
      intros <-; apply Hc; simpl; tauto. }
  rewrite E.
  destruct (inverse_lookup (TYPE_MAPPING obj) c []) as (H1 & H2 & H3).
  simpl in H1, H2, H3. split; [|split].
  - rewrite H1. tauto.
  - intros t Ht. apply H2 in Ht. destruct Ht; [discriminate | assumption].
  - exact H3.
Qed.

(** ** Keys of a dictionary under assignment *)

Section DictKeys.
Context {V : Type}.
Implicit Types (d : list (string * V)) (k : string) (v : V).

Lemma dict_get_None d k : dict_get d k = None <-> ~ In k (map fst d).
Proof.
  unfold dict_get. induction d as [|[k' v'] d IH]; simpl.
  - tauto.
  - destruct (String.eqb_spec k' k) as [->|Hne].
    + split; [discriminate | intros H; exfalso; apply H; now left].
    + rewrite IH. split; [intros H [E|I]; [now apply Hne | now apply H] | tauto].
Qed.

Lemma dict_set_keys d k v :
  map fst (dict_set d k v) =
  (map fst d ++ match dict_get d k with Some _ => [] | None => [k] end)%list.
Proof.
  unfold dict_set, dict_get. induction d as [|[k' v'] d IH]; simpl.
  - reflexivity.
  - destruct (String.eqb k' k); simpl.
    + now rewrite app_nil_r.
    + now rewrite IH.
Qed.

Lemma dict_set_NoDup d k v :
  NoDup (map fst d) -> NoDup (map fst (dict_set d k v)).
Proof.
  intros ND. rewrite dict_set_keys.
  destruct (dict_get d k) eqn:E; [now rewrite app_nil_r|].
  apply dict_get_None in E.
  apply NoDup_app; [exact ND | repeat constructor; simpl; tauto |].
  intros x Hx [<-|[]]. contradiction.
Qed.

Lemma dict_set_In d k v x :
  In x (map fst (dict_set d k v)) <-> In x (map fst d) \/ x = k.
Proof.
  rewrite dict_set_keys, in_app_iff.
  destruct (dict_get d k) eqn:E; simpl.
  - assert (In k (map fst d)).
    { destruct (in_dec string_dec k (map fst d)) as [I|N]; [exact I|].
      apply dict_get_None in N. congruence. }
    split; [tauto | intros [H'| ->]; auto].
  - split; [intros [H|[H|[]]]; auto | intros [H|H]; auto].
Qed.

Lemma dict_set_present d k v : dict_get d k = Some v -> dict_set d k v = d.
Proof.
  unfold dict_set, dict_get. induction d as [|[k' v'] d IH]; simpl.
  - discriminate.
  - destruct (String.eqb k' k); intros H.
    + now inversion H.
    + now rewrite IH.
Qed.
End DictKeys.

Lemma find_last {A} (p : A -> bool) (l : list A) (a : A) :
  find p (l ++ [a]) =
  match find p l with
  | Some x => Some x
  | None => if p a then Some a else None
  end.
Proof.
  induction l as [|x l IH]; simpl; [reflexivity|].
  destruct (p x); [reflexivity | exact IH].
Qed.

Lemma filter_length_perm {A} (p : A -> bool) (l l' : list A) :
  Permutation l l' -> List.length (filter p l) = List.length (filter p l').
Proof.
  induction 1 as [|x l l' P IH|x y l|l1 l2 l3 P1 IH1 P2 IH2]; simpl.
  - reflexivity.
  - destruct (p x); simpl; now rewrite IH.
  - destruct (p x), (p y); reflexivity.
  - now rewrite IH1.
Qed.

Section Extras.

Variable handle_length : dict -> field -> validator -> schema -> res dict.
Variable handle_one_of : dict -> field -> validator -> schema -> res dict.
Variable handle_range : dict -> field -> validator -> schema -> res dict.
Variable field_str : field -> string.
Variable classes : nat -> schema.

Local Abbreviation validators_loop :=
  (apply_validators handle_length handle_one_of handle_range).
Local Abbreviation start := (starting_fragment field_str classes).
Local Abbreviation fragment :=
  (field_fragment handle_length handle_one_of handle_range field_str classes).
Local Abbreviation loop :=
  (properties_loop handle_length handle_one_of handle_range field_str classes).
Local Abbreviation properties :=
  (get_properties handle_length handle_one_of handle_range field_str classes).
Local Abbreviation dump1 :=
  (dump_with handle_length handle_one_of handle_range field_str classes).
Local Abbreviation run :=
  (dump handle_length handle_one_of handle_range field_str classes).
Local Abbreviation frag_of :=
  (fragment_of handle_length handle_one_of handle_range field_str classes).

(** X3: a field whose class [mapping] sends to a type that is no key of
    [TYPE_MAP] fails with [KeyError] on that type, and its schema yields no
    output. *)
Theorem unknown_native_type_KeyError obj k f t :
  In (k, f) (fields obj) ->
  _jsonschema_type_mapping f = None ->
  assoc_get field_class_eqb (mapping obj) (class_ f) = Some t ->
  assoc_get pytype_eqb TYPE_MAP t = None ->
  (forall d, fragment d obj f = Raise (KeyError t))
  /\ (forall fuel out, run fuel obj <> Ok out).
Proof.
  intros I Ho Hm Ht.
  assert (E : forall d, fragment d obj f = Raise (KeyError t)).
  { intros d. unfold field_fragment, starting_fragment, _from_python_type.
    now rewrite Ho, Hm, Ht. }
  split; [exact E|].
  intros fuel. apply run_no_output_of_field with (k := k) (f := f); [exact I|].
  intros d s. rewrite E. discriminate.
Qed.

(** X4: whenever [_from_python_type] returns, the fragment has [title] equal
    to the attribute or else the name, a [type] among [object], [array],
    [string], [number] and [boolean], [default] exactly when the field
    declares one, and no key besides [title], [type], [format] and
    [default]. *)
Theorem primitive_fragment_shape f t s :
  _from_python_type f t = Ok s ->
  dict_get s "title" = Some (VStr (attribute_or_name f))
  /\ (exists ty, dict_get s "type" = Some (VStr ty) /\
                 In ty ["object"; "array"; "string"; "number"; "boolean"])
  /\ dict_get s "default" = default f
  /\ incl (map fst s) ["title"; "type"; "format"; "default"].
Proof using.
  clear handle_length handle_one_of handle_range field_str classes.
  unfold _from_python_type.
  destruct t; simpl; try discriminate;
    destruct (default f); intros H; inversion H; subst s; clear H;
    (split; [reflexivity|]);
    (split; [eexists; split; [reflexivity | simpl; tauto]|]);
    (split; [reflexivity|]);
    intros x Hx; simpl in *; tauto.
Qed.

Lemma loop_keys d obj l : forall acc p,
  NoDup (map fst acc) ->
  loop d obj l acc = Ok p ->
  NoDup (map fst p)
  /\ (forall x, In x (map fst p) <->
                In x (map fst acc) \/ In x (map field_name l))
  /\ List.length p <= List.length acc + List.length l
  /\ (forall x, dict_get p x =
                match find (fun kf => String.eqb (field_name kf) x) (rev l) with
                | Some kf => Some (VDict (frag_of d obj (snd kf)))
                | None => dict_get acc x
                end).
Proof.
  induction l as [|[k f] l IH]; intros acc p ND H; simpl in H.
  - inversion H; subst. simpl. repeat split; auto; try tauto. lia.
  - apply bind_Ok_inv in H. destruct H as (s & Hs & H).
    apply IH in H; [|now apply dict_set_NoDup].
    destruct H as (H1 & H2 & H3 & H4). split; [exact H1|]. split; [|split].
    + intros x. rewrite H2, dict_set_In. simpl. unfold field_name at 2. simpl.
      split; [intros [[H|H]|H] | intros [H|[H|H]]]; auto.
    + assert (List.length (dict_set acc (name f) (VDict s)) <= S (List.length acc)).
      { rewrite <- (length_map fst), dict_set_keys, length_app, length_map.
        destruct (dict_get acc (name f)); simpl; lia. }
      simpl. lia.
    + intros x. rewrite H4. simpl. rewrite find_last.
      destruct (find _ (rev l)); [reflexivity|].
      unfold field_name at 1. simpl.
      destruct (String.eqb_spec (name f) x) as [->|Hne].
      * rewrite dict_get_set_same. unfold fragment_of. cbn [snd]. now rewrite Hs.
      * now rewrite dict_get_set_other.
Qed.

(** X5: also for a schema in which several fields carry the same name,
    [properties] never holds a name twice: its keys are the names of the
    fields, each once, and under a name stands the fragment of the last field
    of that name in key order; [required], for its part, has one item for
    every required field, so it repeats such a name. *)
Theorem properties_keys_distinct d obj props :
  properties d obj = Ok props ->
  NoDup (map fst props)
  /\ (forall x, In x (map fst props) <->
                exists k f, In (k, f) (fields obj) /\ name f = x)
  /\ List.length props <= List.length (fields obj)
  /\ (forall x, dict_get props x =
                match find (fun kf => String.eqb (field_name kf) x)
                           (rev (sorted (fields obj))) with
                | Some kf => Some (VDict (frag_of d obj (snd kf)))
                | None => None
                end)
  /\ List.length (get_required obj) =
     List.length (filter (fun kf => required (snd kf)) (fields obj)).
Proof.
  intros H. unfold get_properties in H.
  apply loop_keys in H; [|constructor].
  destruct H as (H1 & H2 & H3 & H4). split; [exact H1|]. split; [|split; [|split]].
  - intros x. rewrite H2. simpl. split.
    + intros [[]|Hx]. apply in_map_iff in Hx. destruct Hx as ([k f] & Hx & I).
      exists k, f. split; [|exact Hx].
      eapply Permutation_in; [apply sorted_perm | exact I].
    + intros (k & f & I & Hx). right. apply in_map_iff.
      exists (k, f). split; [exact Hx|].
      eapply Permutation_in; [apply Permutation_sym, sorted_perm | exact I].
  - simpl in H3. rewrite H3. apply Nat.eq_le_incl, Permutation_length, sorted_perm.
  - exact H4.
  - rewrite get_required_eq, length_map. apply filter_length_perm, sorted_perm.
Qed.

Lemma fragment_without_nested obj f classes' d d' :
  reaches_nested obj f = false ->
  fragment d obj f =
  field_fragment handle_length handle_one_of handle_range field_str classes'
                 d' obj f.
Proof.
  unfold reaches_nested, field_fragment, starting_fragment.
  destruct (_jsonschema_type_mapping f); [reflexivity|].
  destruct (assoc_get field_class_eqb (mapping obj) (class_ f)); [reflexivity|].
  now intros ->.
Qed.

Lemma loop_without_nested obj classes' d d' l :
  Forall (fun kf => reaches_nested obj (snd kf) = false) l ->
  forall acc,
    loop d obj l acc =
    properties_loop handle_length handle_one_of handle_range field_str classes'
                    d' obj l acc.
Proof.
  induction 1 as [|[k f] l Hf Hl IH]; intros acc; simpl; [reflexivity|].
  simpl in Hf. rewrite (@fragment_without_nested obj f classes' d d' Hf).
  destruct (field_fragment _ _ _ _ classes' d' obj f); simpl; auto.
Qed.

(** X6: the nested schemas are read only for the fields that reach the
    [Nested] branch.  The translation of a schema none of whose fields
    reaches it depends neither on the schema classes of the program nor on
    the recursive calls, and it ends at the first level. *)
Theorem nested_only_when_dispatched obj :
  (forall k f, In (k, f) (fields obj) -> reaches_nested obj f = false) ->
  (forall classes' d d',
     dump1 d obj =
     dump_with handle_length handle_one_of handle_range field_str classes'
               d' obj)
  /\ (forall n, run (S n) obj = run 1 obj).
Proof.
  intros H.
  assert (Hall : Forall (fun kf => reaches_nested obj (snd kf) = false)
                        (sorted (fields obj))).
  { apply Forall_forall. intros [k f] I. apply (H k). simpl.
    eapply Permutation_in; [apply sorted_perm | exact I]. }
  assert (E : forall classes' d d',
     dump1 d obj =
     dump_with handle_length handle_one_of handle_range field_str classes'
               d' obj).
  { intros classes' d d'. unfold dump_with, get_properties.
    now rewrite (@loop_without_nested obj classes' d d' _ Hall). }
  split; [exact E|]. intros n. simpl. apply E.
Qed.

(** X7: [apply_metadata] is idempotent: applied to its own result it
    changes nothing, so a fragment that is handed out and translated again
    stays as it is. *)
Theorem apply_metadata_idempotent f s :
  apply_metadata f (apply_metadata f s) = apply_metadata f s.
Proof using.
  clear handle_length handle_one_of handle_range field_str classes.
  rewrite !apply_metadata_eq. simpl.
  destruct (truthy (metadata_lookup f "title")),
           (truthy (metadata_lookup f "description")).
  - rewrite (dict_set_present
               (dict_set (dict_set s "title" (metadata_lookup f "title"))
                         "description" (metadata_lookup f "description"))
               "title" (v := metadata_lookup f "title")).
    + apply dict_set_present, dict_get_set_same.
    + rewrite dict_get_set_other by discriminate. apply dict_get_set_same.
  - apply dict_set_present, dict_get_set_same.
  - apply dict_set_present, dict_get_set_same.
  - reflexivity.
Qed.

(** X8: [apply_metadata] never removes or moves a key of the fragment: the
    keys of its result are the keys of the fragment, in their order, followed
    by at most [title] and [description]. *)
Theorem apply_metadata_keeps_keys f s :
  exists extra,
    map fst (apply_metadata f s) = (map fst s ++ extra)%list
    /\ incl extra ["title"; "description"]
    /\ (NoDup (map fst s) -> NoDup (map fst (apply_metadata f s))).
Proof using.
  clear handle_length handle_one_of handle_range field_str classes.
  rewrite apply_metadata_eq. simpl.
  destruct (truthy (metadata_lookup f "title")),
           (truthy (metadata_lookup f "description")).
  - assert (ND' : NoDup (map fst s) ->
                  NoDup (map fst (dict_set
                                    (dict_set s "title" (metadata_lookup f "title"))
                                    "description"
                                    (metadata_lookup f "description"))))
      by (intros; now repeat apply dict_set_NoDup).
    revert ND'. rewrite !dict_set_keys, <- app_assoc. intros ND'.
    eexists; split; [reflexivity | split; [|exact ND']].
    intros x Hx. apply in_app_iff in Hx.
    destruct (dict_get s "title"), (dict_get _ "description");
      simpl in *; tauto.
  - assert (ND' : NoDup (map fst s) ->
                  NoDup (map fst (dict_set s "title" (metadata_lookup f "title"))))
      by (intros; now apply dict_set_NoDup).
    revert ND'. rewrite dict_set_keys. intros ND'.
    eexists; split; [reflexivity | split; [|exact ND']].
    intros x Hx. destruct (dict_get s "title"); simpl in *; tauto.
  - assert (ND' : NoDup (map fst s) ->
                  NoDup (map fst (dict_set s "description"
                                           (metadata_lookup f "description"))))
      by (intros; now apply dict_set_NoDup).
    revert ND'. rewrite dict_set_keys. intros ND'.
    eexists; split; [reflexivity | split; [|exact ND']].
    intros x Hx. destruct (dict_get s "description"); simpl in *; tauto.
  - exists []. rewrite app_nil_r. split; [reflexivity | split; [intros x [] | auto]].
Qed.

Lemma start_reaches_nested d obj f :
  reaches_nested obj f = true ->
  start d obj f = _from_nested_schema classes d f.
Proof.
  unfold reaches_nested, starting_fragment.
  destruct (_jsonschema_type_mapping f); [discriminate|].
  destruct (assoc_get field_class_eqb (mapping obj) (class_ f)); [discriminate|].
  now intros ->.
Qed.

Lemma run_stable n x :
  answers (run n x) -> forall m, run m x = run n x \/ run m x = Diverge.
Proof.
  intros H m. destruct (Nat.le_gt_cases n m) as [Hle|Hgt].
  - left. replace m with (n + (m - n)) by lia. now apply run_mono_add.
  - destruct (run m x) as [a|e|] eqn:E; [left | left | now right].
    + rewrite <- E. replace n with (m + (n - m)) by lia.
      symmetry. apply run_mono_add. rewrite E. discriminate.
    + rewrite <- E. replace n with (m + (n - m)) by lia.
      symmetry. apply run_mono_add. rewrite E. discriminate.
Qed.

(** X9: for a field that reaches the [Nested] branch without [many], the
    starting fragment is the translation of the nested schema itself, an
    object schema with [properties] and [required], whether the field is
    required or not; it is the field's fragment when no supported validator
    and no truthy [title] or [description] is applied. *)
Theorem nested_single_fragment n obj f out :
  reaches_nested obj f = true ->
  many f = false ->
  run n (classes (nested f)) = Ok out ->
  start (run n) obj f = Ok out
  /\ dict_get out "type" = Some (VStr "object")
  /\ (exists props, dict_get out "properties" = Some (VDict props))
  /\ (exists req, dict_get out "required" = Some (VList req))
  /\ (Forall (fun v => supported_validator (vclass v) = false) (validators f) ->
      truthy (metadata_lookup f "title") = false ->
      truthy (metadata_lookup f "description") = false ->
      fragment (run n) obj f = Ok out).
Proof.
  intros Hr Hm Ho.
  assert (E : start (run n) obj f = Ok out).
  { rewrite start_reaches_nested by exact Hr.
    unfold _from_nested_schema. rewrite Ho. simpl. now rewrite Hm. }
  split; [exact E|].
  destruct (run_Ok_inv _ _ _ _ _ _ _ Ho) as (m & props & _ & _ & ->).
  split; [reflexivity|]. split; [now eexists|]. split; [now eexists|].
  intros Hv Ht Hd. unfold field_fragment. rewrite E. simpl.
  rewrite validators_loop_unsupported by exact Hv. simpl.
  rewrite apply_metadata_eq. simpl. now rewrite Ht, Hd.
Qed.

(** X10: an error of a nested schema is the error of the field that nests
    it, and a schema that holds such a field yields no output, whatever the
    depth the run is given. *)
Theorem nested_failure_propagates n obj k f e :
  In (k, f) (fields obj) ->
  reaches_nested obj f = true ->
  run n (classes (nested f)) = Raise e ->
  fragment (run n) obj f = Raise e
  /\ (forall fuel out, run fuel obj <> Ok out).
Proof.
  intros I Hr He. split.
  - unfold field_fragment. rewrite start_reaches_nested by exact Hr.
    unfold _from_nested_schema. now rewrite He.
  - intros fuel out H. apply run_Ok_inv in H.
    destruct H as (m & props & _ & Hp & _).
    apply loop_Ok_fields in Hp. rewrite Forall_forall in Hp.
    destruct (Hp (k, f)) as [s Hs].
    { eapply Permutation_in; [apply Permutation_sym, sorted_perm | exact I]. }
    simpl in Hs. unfold field_fragment in Hs.
    rewrite start_reaches_nested in Hs by exact Hr.
    unfold _from_nested_schema in Hs.
    assert (A : answers (run n (classes (nested f))))
      by (rewrite He; discriminate).
    destruct (@run_stable n (classes (nested f)) A m) as [E|E]; rewrite E in Hs;
      [rewrite He in Hs|]; discriminate.
Qed.

(** X11: the error a translation raises is the error of the first failing
    field in the order of the keys, whatever the place of that field in the
    declaration. *)
Theorem first_failure_reported d obj l1 k f l2 e :
  sorted (fields obj) = (l1 ++ (k, f) :: l2)%list ->
  Forall (fun kf => exists s, fragment d obj (snd kf) = Ok s) l1 ->
  fragment d obj f = Raise e ->
  dump1 d obj = Raise e
  /\ Forall (fun kf => String.leb (fst kf) k = true) l1
  /\ Forall (fun kf => String.leb k (fst kf) = true) l2.
Proof.
  intros Hs Hall Hf. split; [|split].
  - unfold dump_with, get_properties. rewrite Hs.
    erewrite loop_first_failure; [reflexivity | exact Hall | exact Hf].
  - pose proof (sorted_sorted (fields obj)) as S. rewrite Hs in S.
    clear Hs Hall. induction l1 as [|x l1 IH]; [constructor|].
    simpl in S. inversion S as [|? ? S' A]; subst. constructor.
    + rewrite Forall_forall in A. apply (A (k, f)).
      apply in_or_app. right. now left.
    + now apply IH.
  - pose proof (sorted_sorted (fields obj)) as S. rewrite Hs in S.
    clear Hs Hall. induction l1 as [|x l1 IH].
    + simpl in S. inversion S as [|? ? S' A]; subst. exact A.
    + simpl in S. inversion S; subst. now apply IH.
Qed.

Lemma bind_Ok_r {A} (m : res A) : bind m Ok = m.
Proof. now destruct m. Qed.

(** X12: the validators of a field are applied from left to right, each
    handler to the fragment the one before it returned; an error of a handler
    ends the loop with that error; and a validator of a supported class is one
    call of the handler [FIELD_VALIDATORS] has for that class. *)
Theorem validators_in_order obj f :
  (forall vs1 vs2 s,
     validators_loop obj f (vs1 ++ vs2) s =
     (s' <- validators_loop obj f vs1 s ;; validators_loop obj f vs2 s'))
  /\ (forall vs1 vs2 s e,
        validators_loop obj f vs1 s = Raise e ->
        validators_loop obj f (vs1 ++ vs2) s = Raise e)
  /\ (forall v s, vclass v = Length ->
        validators_loop obj f [v] s = handle_length s f v obj)
  /\ (forall v s, vclass v = OneOf ->
        validators_loop obj f [v] s = handle_one_of s f v obj)
  /\ (forall v s, vclass v = Range ->
        validators_loop obj f [v] s = handle_range s f v obj).
Proof.
  split; [intros; apply validators_loop_app|].
  split; [intros vs1 vs2 s e H; now rewrite validators_loop_app, H|].
  repeat split; intros v s Hv; simpl; rewrite Hv; simpl; apply bind_Ok_r.
Qed.

Lemma loop_all_Ok d obj l :
  Forall (fun kf => exists s, fragment d obj (snd kf) = Ok s) l ->
  forall acc, exists p, loop d obj l acc = Ok p.
Proof.
  induction 1 as [|[k f] l [s Hs] Hl IH]; intros acc; simpl.
  - now exists acc.
  - simpl in Hs. rewrite Hs. simpl. apply IH.
Qed.

(** X13: a schema translates when each of its fields has its own
    [_jsonschema_type_mapping] or a class that [mapping] sends to a key of
    [TYPE_MAP], and the handlers of its validators return: such a schema
    needs no nested schema and raises nothing. *)
Theorem self_contained_schema_translates obj :
  (forall k f, In (k, f) (fields obj) -> self_contained obj f = true) ->
  (forall k f s, In (k, f) (fields obj) ->
                 exists s', validators_loop obj f (validators f) s = Ok s') ->
  (forall d, exists out, dump1 d obj = Ok out)
  /\ (forall n, exists out, run (S n) obj = Ok out).
Proof.
  intros Hsc Hv.
  assert (E : forall d, exists out, dump1 d obj = Ok out).
  { intros d. unfold dump_with, get_properties.
    destruct (@loop_all_Ok d obj (sorted (fields obj))) with (acc := @nil (string * value))
      as [p Hp].
    - apply Forall_forall. intros [k f] I. simpl.
      assert (I' : In (k, f) (fields obj))
        by (eapply Permutation_in; [apply sorted_perm | exact I]).
      specialize (Hsc k f I'). unfold self_contained in Hsc.
      unfold field_fragment, starting_fragment, _from_python_type.
      destruct (_jsonschema_type_mapping f) as [o|].
      + simpl. destruct (Hv k f o I') as [s' Hs']. rewrite Hs'. simpl. now eexists.
      + destruct (assoc_get field_class_eqb (mapping obj) (class_ f)) as [t|];
          [|discriminate].
        destruct (assoc_get pytype_eqb TYPE_MAP t) as [m|]; [|discriminate].
        simpl.
        match goal with |- context [validators_loop obj f (validators f) ?s0] =>
          destruct (Hv k f s0 I') as [s' Hs']; rewrite Hs' end.
        simpl. now eexists.
    - rewrite Hp. simpl. now eexists. }
  split; [exact E|]. intros n. simpl. apply E.
Qed.

(** X14: a schema with no field translates to the object schema with empty
    [properties] and empty [required]; every output has [type] [object]; and
    [required] is there, as the empty list, also when no field is
    required. *)
Theorem empty_and_optional :
  (forall tm n,
     run (S n) {| TYPE_MAPPING := tm; fields := [] |} =
     Ok [ ("properties", VDict []); ("type", VStr "object");
          ("required", VList []) ])
  /\ (forall fuel obj out,
        run fuel obj = Ok out ->
        dict_get out "type" = Some (VStr "object")
        /\ ((forall k f, In (k, f) (fields obj) -> required f = false) ->
            dict_get out "required" = Some (VList []))).
Proof.
  split; [reflexivity|].
  intros fuel obj out H. apply run_Ok_inv in H.
  destruct H as (n & props & _ & _ & ->). split; [reflexivity|].
  intros Hreq. rewrite get_required_eq.
  replace (filter (fun kf => required (snd kf)) (sorted (fields obj)))
    with (@nil (string * field)); [reflexivity|].
  symmetry. assert (Hall : forall kf, In kf (sorted (fields obj)) ->
                                      required (snd kf) = false).
  { intros [k f] I. apply (Hreq k). simpl.
    eapply Permutation_in; [apply sorted_perm | exact I]. }
  induction (sorted (fields obj)) as [|x l IH]; [reflexivity|].
  simpl. rewrite (Hall x (or_introl eq_refl)). apply IH.
  intros kf I. apply Hall. now right.
Qed.

Lemma validators_loop_answers obj f vs :
  handler_answers handle_length -> handler_answers handle_one_of ->
  handler_answers handle_range ->
  forall s, answers (validators_loop obj f vs s).
Proof.
  intros Hl Ho Hr. induction vs as [|v vs IH]; intros s; [discriminate|].
  simpl. destruct (vclass v); simpl; auto.
  - specialize (Hl s f v obj). destruct (handle_length s f v obj);
      simpl; [apply IH | discriminate | contradiction].
  - specialize (Ho s f v obj). destruct (handle_one_of s f v obj);
      simpl; [apply IH | discriminate | contradiction].
  - specialize (Hr s f v obj). destruct (handle_range s f v obj);
      simpl; [apply IH | discriminate | contradiction].
Qed.

Lemma loop_answers d obj l :
  Forall (fun kf => answers (fragment d obj (snd kf))) l ->
  forall acc, answers (loop d obj l acc).
Proof.
  induction 1 as [|[k f] l Hf Hl IH]; intros acc; simpl; [discriminate|].
  simpl in Hf. destruct (fragment d obj f); simpl;
    [apply IH | discriminate | contradiction].
Qed.

(** X15: when the schema classes of the program can be ranked so that every
    field that reaches the [Nested] branch refers to a class of smaller rank,
    and the handlers return or raise, the translation of a class of rank [r]
    returns or raises within [r + 1] levels of recursion. *)
Theorem acyclic_terminates (rank : nat -> nat) :
  handler_answers handle_length ->
  handler_answers handle_one_of ->
  handler_answers handle_range ->
  (forall c k f, In (k, f) (fields (classes c)) ->
                 reaches_nested (classes c) f = true ->
                 rank (nested f) < rank c) ->
  forall c, answers (run (S (rank c)) (classes c)).
Proof.
  intros Hl Ho Hr Hrank.
  assert (G : forall n c, rank c < n -> answers (run n (classes c))).
  { induction n as [|n IH]; intros c Hc; [lia|].
    simpl. unfold dump_with, get_properties.
    assert (A : answers (loop (run n) (classes c) (sorted (fields (classes c))) [])).
    { apply loop_answers. apply Forall_forall. intros [k f] I. simpl.
      assert (I' : In (k, f) (fields (classes c)))
        by (eapply Permutation_in; [apply sorted_perm | exact I]).
      unfold field_fragment.
      assert (S0 : answers (start (run n) (classes c) f)).
      { destruct (reaches_nested (classes c) f) eqn:R.
        - rewrite start_reaches_nested by exact R.
          unfold _from_nested_schema.
          assert (A : answers (run n (classes (nested f))))
            by (apply IH; specialize (Hrank c k f I' R); lia).
          destruct (run n (classes (nested f)));
            simpl; [destruct (many f); discriminate | discriminate | contradiction].
        - unfold reaches_nested in R. unfold starting_fragment, _from_python_type.
          destruct (_jsonschema_type_mapping f); [discriminate|].
          destruct (assoc_get field_class_eqb (mapping (classes c)) (class_ f)).
          + destruct (assoc_get pytype_eqb TYPE_MAP p); discriminate.
          + rewrite R. discriminate. }
      destruct (start (run n) (classes c) f) as [s0| |];
        simpl; [| discriminate | contradiction].
      pose proof (@validators_loop_answers (classes c) f (validators f) Hl Ho Hr s0) as V.
      destruct (validators_loop (classes c) f (validators f) s0);
        simpl; [discriminate | discriminate | contradiction]. }
    destruct (loop (run n) (classes c) (sorted (fields (classes c))) []);
      simpl; [discriminate | discriminate | contradiction]. }
  intros c. apply G. lia.
Qed.

End Extras.

(** ** Instances of the further properties *)

Lemma spec_handlers_answer :
  handler_answers SpecHandlers.handle_length /\
  handler_answers SpecHandlers.handle_one_of /\
  handler_answers SpecHandlers.handle_range.
Proof.
  repeat split; intros s f v obj.
  - unfold SpecHandlers.handle_length. destruct (vequal v); discriminate.
  - discriminate.
  - unfold SpecHandlers.handle_range.
    destruct (vmin v), (vmax v); discriminate.
Qed.

Lemma mapping_inverts_TYPE_MAPPING_witness :
  assoc_get field_class_eqb (mapping person) String_ = Some binary_type.
Proof.
  refine (proj2 (proj2 (@mapping_inverts_TYPE_MAPPING person String_ _))
            [(text_type, String_)] binary_type _ eq_refl _).
  - simpl. intuition discriminate.
  - simpl. intuition discriminate.
Defined.

Lemma unknown_native_type_KeyError_witness :
  translate_field no_classes 0 shape point = Raise (KeyError (py_other 0)).
Proof.
  refine (proj1 (@unknown_native_type_KeyError
            SpecHandlers.handle_length SpecHandlers.handle_one_of
            SpecHandlers.handle_range SpecHandlers.field_str no_classes
            shape "point" point (py_other 0) _ eq_refl eq_refl eq_refl)
          (translate no_classes 0)).
  simpl. tauto.
Defined.

Lemma primitive_fragment_shape_witness :
  dict_get [ ("title", VStr "age"); ("type", VStr "number");
             ("format", VStr "integer") ] "default" = None.
Proof.
  exact (proj1 (proj2 (proj2 (@primitive_fragment_shape age py_int _ eq_refl)))).
Defined.

Lemma properties_keys_distinct_witness :
  NoDup (map fst [ ("shared", VDict [ ("title", VStr "shared");
                                       ("type", VStr "number");
                                       ("format", VStr "integer") ]) ])
  /\ get_required aliased = ["shared"; "shared"].
Proof.
  split; [|reflexivity].
  exact (proj1 (@properties_keys_distinct
                  SpecHandlers.handle_length SpecHandlers.handle_one_of
                  SpecHandlers.handle_range SpecHandlers.field_str no_classes
                  (translate no_classes 0) aliased _ eq_refl)).
Defined.

Lemma nested_only_when_dispatched_witness :
  translate team_classes 5 person = translate team_classes 1 person.
Proof.
  refine (proj2 (@nested_only_when_dispatched
            SpecHandlers.handle_length SpecHandlers.handle_one_of
            SpecHandlers.handle_range SpecHandlers.field_str team_classes
            person _) 4).
  intros k f [E|[E|[]]]; inversion E; reflexivity.
Defined.

Lemma nested_single_fragment_witness :
  translate_field team_classes 1 account owner = Ok person_output.
Proof.
  refine (proj2 (proj2 (proj2 (proj2 (@nested_single_fragment
            SpecHandlers.handle_length SpecHandlers.handle_one_of
            SpecHandlers.handle_range SpecHandlers.field_str team_classes
            1 account owner person_output eq_refl eq_refl eq_refl))))
          _ eq_refl eq_refl).
  constructor.
Defined.

Lemma nested_failure_propagates_witness :
  translate_field ledger_classes 1 account owner =
  Raise (ValueError "unsupported field type <fields.Number(name=amount)>")
  /\ translate ledger_classes 3 account <> Ok person_output.
Proof.
  pose proof (@nested_failure_propagates
            SpecHandlers.handle_length SpecHandlers.handle_one_of
            SpecHandlers.handle_range SpecHandlers.field_str ledger_classes
            1 account "owner" owner
            (ValueError "unsupported field type <fields.Number(name=amount)>")
            (or_introl eq_refl) eq_refl eq_refl) as [H1 H2].
  split; [exact H1 | exact (H2 3 person_output)].
Defined.

Lemma first_failure_reported_witness :
  translate no_classes 1 ledger =
  Raise (ValueError "unsupported field type <fields.Number(name=amount)>").
Proof.
  refine (proj1 (@first_failure_reported
            SpecHandlers.handle_length SpecHandlers.handle_one_of
            SpecHandlers.handle_range SpecHandlers.field_str no_classes
            (translate no_classes 0) ledger [("age", age)] "amount" amount []
            _ eq_refl _ eq_refl)).
  constructor; [|constructor]. eexists. reflexivity.
Defined.

Lemma self_contained_schema_translates_witness :
  exists out, translate no_classes 3 person = Ok out.
Proof.
  refine (proj2 (@self_contained_schema_translates
            SpecHandlers.handle_length SpecHandlers.handle_one_of
            SpecHandlers.handle_range SpecHandlers.field_str no_classes
            person _ _) 2).
  - intros k f [E|[E|[]]]; inversion E; reflexivity.
  - intros k f s [E|[E|[]]]; inversion E; eexists; reflexivity.
Defined.

Lemma acyclic_terminates_witness :
  answers (translate chain_classes 4 (chain_classes 3)).
Proof.
  refine (@acyclic_terminates
            SpecHandlers.handle_length SpecHandlers.handle_one_of
            SpecHandlers.handle_range SpecHandlers.field_str chain_classes
            (fun c => c)
            (proj1 spec_handlers_answer)
            (proj1 (proj2 spec_handlers_answer))
            (proj2 (proj2 spec_handlers_answer)) _ 3).
  intros [|c] k f I R; simpl in I; [contradiction|].
  destruct I as [E|[]]. inversion E; subst. simpl. lia.
Defined.

(** * The output of a schema, and the stack of the interpreter *)

Section SchemaOutput.

Variable handle_length : dict -> field -> validator -> schema -> res dict.
Variable handle_one_of : dict -> field -> validator -> schema -> res dict.
Variable handle_range : dict -> field -> validator -> schema -> res dict.
Variable field_str : field -> string.
Variable classes : nat -> schema.

Local Abbreviation fragment :=
  (field_fragment handle_length handle_one_of handle_range field_str classes).
Local Abbreviation properties :=
  (get_properties handle_length handle_one_of handle_range field_str classes).
Local Abbreviation run :=
  (dump handle_length handle_one_of handle_range field_str classes).
Local Abbreviation entry :=
  (entry_of handle_length handle_one_of handle_range field_str classes).

(** C2, as amended: in the output for a schema, [required] holds exactly the
    names of the fields marked required, every one of them a key of
    [properties], and the keys of [properties] are exactly the names of the
    fields, each once; when the names of the fields are pairwise distinct,
    [required] has no duplicates and [properties] holds one entry for every
    field, under the field's name, with the field's fragment. *)
Theorem required_and_properties fuel obj out :
  run fuel obj = Ok out ->
  exists props,
    out = [ ("properties", VDict props); ("type", VStr "object");
            ("required", VList (map VStr (get_required obj))) ]
    /\ (forall x, In x (get_required obj) <->
                  exists k f, In (k, f) (fields obj) /\
                              required f = true /\ name f = x)
    /\ (forall x, In x (get_required obj) -> In x (map fst props))
    /\ (forall x, In x (map fst props) <->
                  exists k f, In (k, f) (fields obj) /\ name f = x)
    /\ NoDup (map fst props)
    /\ (NoDup (map field_name (fields obj)) ->
        NoDup (get_required obj)
        /\ (forall k f, In (k, f) (fields obj) ->
              exists frag,
                fragment (run (pred fuel)) obj f = Ok frag /\
                dict_get props (name f) = Some (VDict frag))
        /\ List.length props = List.length (fields obj)).
Proof.
  intros H. apply run_Ok_inv in H.
  destruct H as (n & props & -> & Hp & ->). exists props.
  assert (K : NoDup (map fst props) /\
              forall x, In x (map fst props) <->
                        In x (map field_name (sorted (fields obj)))).
  { unfold get_properties in Hp. apply loop_keys in Hp; [|constructor].
    destruct Hp as (K1 & K2 & _). split; [exact K1|].
    intros x. rewrite K2. simpl. tauto. }
  destruct K as [NDp Kin].
  assert (Hreq : forall x, In x (get_required obj) <->
                  exists k f, In (k, f) (fields obj) /\
                              required f = true /\ name f = x).
  { intros x. rewrite get_required_eq, in_map_iff. split.
    - intros ([k f] & Hx & I). apply filter_In in I. destruct I as [I R].
      exists k, f. repeat split; auto.
      eapply Permutation_in; [apply sorted_perm | exact I].
    - intros (k & f & I & R & Hx). exists (k, f). split; [exact Hx|].
      apply filter_In. split; [|exact R].
      eapply Permutation_in; [apply Permutation_sym, sorted_perm | exact I]. }
  assert (Hkeys : forall x, In x (map fst props) <->
                  exists k f, In (k, f) (fields obj) /\ name f = x).
  { intros x. rewrite Kin, in_map_iff. split.
    - intros ([k f] & Hx & I). exists k, f. split; [|exact Hx].
      eapply Permutation_in; [apply sorted_perm | exact I].
    - intros (k & f & I & Hx). exists (k, f). split; [exact Hx|].
      eapply Permutation_in; [apply Permutation_sym, sorted_perm | exact I]. }
  split; [reflexivity|]. split; [exact Hreq|]. split.
  { intros x Hx. apply Hkeys. apply Hreq in Hx.
    destruct Hx as (k & f & I & _ & Hx). now exists k, f. }
  split; [exact Hkeys|]. split; [exact NDp|].
  intros ND.
  assert (NDs : NoDup (map field_name (sorted (fields obj)))).
  { eapply Permutation_NoDup; [|exact ND].
    apply Permutation_map, Permutation_sym, sorted_perm. }
  assert (Eprops : props = map (entry (run n) obj) (sorted (fields obj))).
  { unfold get_properties in Hp. apply loop_Ok_distinct in Hp; [exact Hp|].
    exact NDs. }
  split; [|split].
  - rewrite get_required_eq. now apply NoDup_map_filter.
  - intros k f I. simpl.
    assert (Is : In (k, f) (sorted (fields obj)))
      by (eapply Permutation_in; [apply Permutation_sym, sorted_perm | exact I]).
    assert (Hall : Forall (fun kf => exists s, fragment (run n) obj (snd kf) = Ok s)
                          (sorted (fields obj)))
      by (eapply loop_Ok_fields; exact Hp).
    rewrite Forall_forall in Hall. destruct (Hall _ Is) as [frag Hfrag].
    simpl in Hfrag. exists frag. split; [exact Hfrag|].
    apply dict_get_In; [exact NDp|].
    rewrite Eprops. apply in_map_iff. exists (k, f). split; [|exact Is].
    unfold entry_of, fragment_of, field_name. simpl. now rewrite Hfrag.
  - rewrite Eprops, length_map. apply Permutation_length, sorted_perm.
Qed.

End SchemaOutput.

Section StackLimit.

Variable handle_length : dict -> field -> validator -> schema -> res dict.
Variable handle_one_of : dict -> field -> validator -> schema -> res dict.
Variable handle_range : dict -> field -> validator -> schema -> res dict.
Variable field_str : field -> string.

Local Abbreviation validators_loop :=
  (apply_validators handle_length handle_one_of handle_range).
Local Abbreviation fragment :=
  (field_fragment handle_length handle_one_of handle_range field_str).
Local Abbreviation loop :=
  (properties_loop handle_length handle_one_of handle_range field_str).
Local Abbreviation dump1 :=
  (dump_with handle_length handle_one_of handle_range field_str).
Local Abbreviation run :=
  (dump handle_length handle_one_of handle_range field_str).
Local Abbreviation run_limited :=
  (dump_limited handle_length handle_one_of handle_range field_str).

Hypothesis length_answers : handler_answers handle_length.
Hypothesis one_of_answers : handler_answers handle_one_of.
Hypothesis range_answers : handler_answers handle_range.

Lemma limited_answer (r : res dict) : answers r -> limited r = r.
Proof. destruct r; [reflexivity | reflexivity | intros H; now contradiction H]. Qed.

Lemma bind_limited (m : res dict) (k k' : dict -> res dict) :
  (forall a, k' a = limited (k a)) ->
  bind (limited m) k' = limited (bind m k).
Proof. intros H. destruct m; simpl; auto. Qed.

Lemma fragment_limited classes (d d' : schema -> res dict) obj f :
  (forall x, d' x = limited (d x)) ->
  fragment classes d' obj f = limited (fragment classes d obj f).
Proof.
  intros Hd. unfold field_fragment.
  assert (S0 : starting_fragment field_str classes d' obj f =
               limited (starting_fragment field_str classes d obj f)).
  { unfold starting_fragment, _from_python_type, _from_nested_schema.
    destruct (_jsonschema_type_mapping f); [reflexivity|].
    destruct (assoc_get field_class_eqb (mapping obj) (class_ f)).
    - destruct (assoc_get pytype_eqb TYPE_MAP p); reflexivity.
    - destruct (is_nested f); [|reflexivity].
      rewrite Hd. apply bind_limited. intros a. now destruct (many f). }
  rewrite S0. apply bind_limited. intros s.
  symmetry. apply limited_answer.
  pose proof (@validators_loop_answers handle_length handle_one_of handle_range
                obj f (validators f) length_answers one_of_answers
                range_answers s) as V.
  destruct (validators_loop obj f (validators f) s);
    simpl; [discriminate | discriminate | now contradiction V].
Qed.

Lemma loop_limited classes (d d' : schema -> res dict) obj l :
  (forall x, d' x = limited (d x)) ->
  forall acc, loop classes d' obj l acc = limited (loop classes d obj l acc).
Proof.
  intros Hd. induction l as [|[k f] l IH]; intros acc; simpl; [reflexivity|].
  rewrite (fragment_limited classes d d' obj f Hd).
  apply bind_limited. intros s. apply IH.
Qed.

Lemma run_limited_spec classes limit : forall obj,
  run_limited classes limit obj = limited (run classes limit obj).
Proof.
  induction limit as [|n IH]; intros obj; [reflexivity|].
  simpl. unfold dump_with, get_properties.
  rewrite (loop_limited classes (run classes n) (run_limited classes n) obj
             (sorted (fields obj)) IH).
  apply bind_limited. reflexivity.
Qed.

(** C9, as amended: the code sets no depth of its own; the recursion into
    nested schemas is bounded by the stack of the interpreter.  With a stack
    that admits [limit] nested calls, the translation is the one that
    follows the nested schemas to the depth [limit], and where that one has
    not returned the call raises [RecursionError]: it always returns or
    raises.  So a chain of nested schemas translates when it is shorter than
    the limit and raises [RecursionError] when it is not, and a schema whose
    one field nests the schema itself raises [RecursionError] at every
    limit. *)
Theorem recursion_limit :
  (forall classes limit obj,
     run_limited classes limit obj = limited (run classes limit obj))
  /\ (forall classes limit obj, answers (run_limited classes limit obj))
  /\ (forall classes limit obj,
        run classes limit obj = Diverge ->
        run_limited classes limit obj = Raise RecursionError)
  /\ (forall classes limit obj,
        answers (run classes limit obj) ->
        forall limit', limit <= limit' ->
          run_limited classes limit' obj = run classes limit obj)
  /\ (forall limit n, limit <= n ->
        run_limited Examples.chain_classes limit (Examples.chain_classes n) =
        Raise RecursionError)
  /\ (forall limit n, n < limit ->
        run_limited Examples.chain_classes limit (Examples.chain_classes n) =
        Ok (Examples.chain_output n))
  /\ (forall limit,
        run_limited Examples.cyclic_classes limit (Examples.cyclic_classes 0) =
        Raise RecursionError).
Proof.
  assert (G : forall classes limit obj,
             answers (run classes limit obj) ->
             forall limit', limit <= limit' ->
               run_limited classes limit' obj = run classes limit obj).
  { intros classes limit obj A limit' Hle.
    rewrite run_limited_spec.
    replace limit' with (limit + (limit' - limit)) by lia.
    rewrite run_mono_add by exact A. now apply limited_answer. }
  split; [exact run_limited_spec|]. split; [|split; [|split; [exact G|]]].
  - intros classes limit obj. rewrite run_limited_spec.
    destruct (run classes limit obj); discriminate.
  - intros classes limit obj H. now rewrite run_limited_spec, H.
  - split; [|split].
    + intros limit n Hle. now rewrite run_limited_spec, chain_short.
    + intros limit n Hlt.
      rewrite (G Examples.chain_classes (S n) (Examples.chain_classes n));
        [apply chain_run | rewrite chain_run; discriminate | lia].
    + intros limit. now rewrite run_limited_spec, cyclic_run.
Qed.

End StackLimit.

Lemma required_and_properties_witness :
  NoDup (get_required person) /\
  (forall x, In x (get_required person) -> In x ["age"; "name"]).
Proof.
  destruct (@required_and_properties
              SpecHandlers.handle_length SpecHandlers.handle_one_of
              SpecHandlers.handle_range SpecHandlers.field_str no_classes
              1 person person_output eq_refl)
    as (props & E & _ & Hin & _ & _ & Hd).
  split.
  - apply Hd. simpl. repeat constructor; simpl; intuition discriminate.
  - intros x Hx. apply Hin in Hx. inversion E; subst props. exact Hx.
Defined.

(** C2: in a schema that holds one field instance under two keys, both
    items carry the same name: [required] lists that name twice, and the two
    fields give one entry of [properties]. *)
Lemma required_and_properties_counterexample :
  translate no_classes 1 aliased =
    Ok [ ("properties",
          VDict [ ("shared", VDict [ ("title", VStr "shared");
                                     ("type", VStr "number");
                                     ("format", VStr "integer") ]) ]);
         ("type", VStr "object");
         ("required", VList [VStr "shared"; VStr "shared"]) ]
  /\ ~ NoDup (get_required aliased)
  /\ List.length (fields aliased) = 2.
Proof.
  split; [reflexivity | split; [|reflexivity]].
  intros H. change (get_required aliased) with ["shared"; "shared"] in H.
  inversion H as [|x l Hn _]; subst. apply Hn. now left.
Qed.

Lemma recursion_limit_witness :
  translate_limited chain_classes 3 (chain_classes 5) = Raise RecursionError
  /\ translate_limited chain_classes 3 (chain_classes 2) = Ok (chain_output 2).
Proof.
  pose proof (@recursion_limit
                SpecHandlers.handle_length SpecHandlers.handle_one_of
                SpecHandlers.handle_range SpecHandlers.field_str
                (proj1 spec_handlers_answer)
                (proj1 (proj2 spec_handlers_answer))
                (proj2 (proj2 spec_handlers_answer)))
    as (_ & _ & _ & _ & H5 & H6 & _).
  split; [apply (H5 3 5); lia | apply (H6 3 2); lia].
Defined.

(** C9: two schemas that refer to themselves and do not end in
    [RecursionError], whatever the limit.  In the first a field sorted before
    the [Nested] field fails, and the translation raises its [ValueError]; in
    the second the [Nested] field describes itself, and the translation
    returns. *)
Lemma recursion_limit_counterexample :
  is_nested described = true
  /\ ~ (exists limit,
          0 < limit /\
          translate_limited guarded_classes limit (guarded_classes 0) =
          Raise RecursionError)
  /\ ~ (exists limit e,
          0 < limit /\
          translate_limited described_classes limit (described_classes 0) =
          Raise e).
Proof.
  split; [reflexivity | split].
  - intros (limit & Hl & H). destruct limit as [|n]; [lia|]. discriminate.
  - intros (limit & e & Hl & H). destruct limit as [|n]; [lia|]. discriminate.
Qed.
